(** * Key-management core of jwx: AES key wrap, RSA and ECDH-ES key
      encryption, and the fixed-width EC coordinate codec.

    The Go sources [jwe/internal/keyenc/keyenc.go] and [jwk/ecdsa.go] are
    embedded as Rocq functions.  Byte slices are [list byte], Go [int]s are
    [Z], a Go function returning [(value, error)] returns a [result], and a
    run-time panic is the third constructor of [result]. *)

From Stdlib Require Import ZArith Lia Bool.
From Stdlib Require Import Strings.Byte.
From stdpp Require Import base list strings.

Local Open Scope Z_scope.

(** ** Go values *)

Module Go.

#[global] Instance byte_eq_decision : EqDecision byte := Byte.byte_eq_dec.

(** [byte(v)]: conversion of an integer to a byte keeps the low 8 bits. *)
Definition byte_of_Z (v : Z) : byte :=
  match Byte.of_N (Z.to_N (v mod 256)) with
  | Some b => b
  | None => x00
  end.

Definition byte_to_Z (b : byte) : Z := Z.of_N (Byte.to_N b).

(** [a ^ b] on bytes. *)
Definition byte_xor (a b : byte) : byte :=
  let '(a0, (a1, (a2, (a3, (a4, (a5, (a6, a7))))))) := Byte.to_bits a in
  let '(b0, (b1, (b2, (b3, (b4, (b5, (b6, b7))))))) := Byte.to_bits b in
  Byte.of_bits (xorb a0 b0, (xorb a1 b1, (xorb a2 b2, (xorb a3 b3,
               (xorb a4 b4, (xorb a5 b5, (xorb a6 b6, xorb a7 b7))))))).

(** [make([]byte, n)] for a non-negative [n]. *)
Definition make (n : nat) : list byte := replicate n x00.

(** [copy(dst, src)]: the first [min(len(dst), len(src))] elements of [dst]
    are overwritten; the value is the new content of [dst]. *)
Definition copy {A} (dst src : list A) : list A :=
  take (length dst) src ++ drop (length src) dst.

(** [copy(dst[off:], src)], as seen from [dst]. *)
Definition copy_at {A} (dst : list A) (off : nat) (src : list A) : list A :=
  take off dst ++ copy (drop off dst) src.

(** [binary.BigEndian.PutUint64(b, v)] on an 8-byte [b]. *)
Definition PutUint64 (v : Z) : list byte :=
  [ byte_of_Z (Z.shiftr v 56); byte_of_Z (Z.shiftr v 48);
    byte_of_Z (Z.shiftr v 40); byte_of_Z (Z.shiftr v 32);
    byte_of_Z (Z.shiftr v 24); byte_of_Z (Z.shiftr v 16);
    byte_of_Z (Z.shiftr v 8);  byte_of_Z v ].

(** [binary.BigEndian.PutUint32(b, v)] on a 4-byte [b]. *)
Definition PutUint32 (v : Z) : list byte :=
  [ byte_of_Z (Z.shiftr v 24); byte_of_Z (Z.shiftr v 16);
    byte_of_Z (Z.shiftr v 8);  byte_of_Z v ].

(** Conversions [uint32(v)] and the wrap-around of the 64-bit [int]. *)
Definition uint32 (v : Z) : Z := v mod 2 ^ 32.
Definition int64 (v : Z) : Z := (v + 2 ^ 63) mod 2 ^ 64 - 2 ^ 63.

(** [subtle.ConstantTimeCompare(x, y) == 1]. *)
Definition ConstantTimeCompare (x y : list byte) : bool :=
  bool_decide (x = y).

(** *** [math/big]: a [big.Int] is a [Z]. *)

(** Little-endian base-256 digits of a non-negative [x]; [fuel] bounds the
    number of digits. *)
Fixpoint le_digits (fuel : nat) (x : Z) : list byte :=
  match fuel with
  | O => []
  | S f => if x =? 0 then [] else byte_of_Z x :: le_digits f (x / 256)
  end.

(** [x.Bytes()]: the absolute value of [x] as a big-endian byte slice
    without leading zeros. *)
Definition Bytes (x : Z) : list byte :=
  rev (le_digits (S (Z.to_nat (Z.log2 (Z.abs x)))) (Z.abs x)).

(** [z.SetBytes(buf)]: [buf] read as a big-endian unsigned integer. *)
Definition SetBytes (buf : list byte) : Z :=
  fold_left (fun acc b => acc * 256 + byte_to_Z b) buf 0.

(** [x.BitLen()]: length of the absolute value of [x] in bits. *)
Definition BitLen (x : Z) : Z :=
  if x =? 0 then 0 else Z.log2 (Z.abs x) + 1.

End Go.

(** ** Errors and results *)

(** [jwa.KeyEncryptionAlgorithm]: the key-encryption algorithm identifiers.
    The Go type is a string: [OtherKeyAlg name] stands for a string [name]
    that is none of the twelve constants. *)
Inductive KeyEncryptionAlgorithm :=
| DIRECT | A128KW | A192KW | A256KW
| ECDH_ES | ECDH_ES_A128KW | ECDH_ES_A192KW | ECDH_ES_A256KW
| ECMR | RSA1_5 | RSA_OAEP | RSA_OAEP_256
| OtherKeyAlg (name : string).

#[global] Instance KeyEncryptionAlgorithm_eq_dec :
  EqDecision KeyEncryptionAlgorithm.
Proof. solve_decision. Defined.

(** The errors the two files build; each constructor is one message. *)
Inductive error :=
| ErrKeywrapInput            (* keywrap input must be 8 byte blocks *)
| ErrKeyunwrapInput          (* keyunwrap input must be 8 byte blocks *)
| ErrKeyUnwrapFailed         (* key unwrap: failed to unwrap key *)
| ErrInvalidRSAOAEPEncryptAlg (alg : KeyEncryptionAlgorithm)
| ErrInvalidRSAPKCSEncryptAlg (alg : KeyEncryptionAlgorithm)
| ErrInvalidRSAOAEPDecryptAlg (alg : KeyEncryptionAlgorithm)
| ErrInputSize (expectedlen got : Z)
                             (* input size for key decrypt is incorrect *)
| ErrGenerateKey             (* failed to generate key *)
| ErrInvalidECDHESAlg (alg : KeyEncryptionAlgorithm)
                             (* invalid ECDH-ES key wrap algorithm *)
| ErrNotOnPrivkeyCurve       (* public key must be on the same curve as
                                private key *)
| ErrCurveType               (* expect EC curve type %v, got %v *)
| ErrServerKeyNotOnCurve     (* server key is not on the curve %v *)
| ErrExternal (what : string) (* an error value made outside these files *)
| ErrWrap (cause : error) (msg : string). (* errors.Wrap(cause, msg) *)

Inductive result (A : Type) :=
| Ok (a : A)
| Err (e : error)
| Panic (msg : string).
Arguments Ok {A} a.
Arguments Err {A} e.
Arguments Panic {A} msg.

(** ** jwk/ecdsa.go *)

Module jwk.

(** [elliptic.CurveParams], the fields read here. *)
Record CurveParams := { BitSize : Z; Name : string }.

(** [curveSize]: size of the curve in bytes.  Go's [/] and [%] truncate. *)
Definition curveSize (params : CurveParams) : Z :=
  let bits := BitSize params in
  let div := Z.quot bits 8 in
  let mod_ := Z.rem bits 8 in
  if mod_ =? 0 then div else div + 1.

Definition newFixedSizeBuffer (data : list byte) (length_ : Z)
  : result (list byte) :=
  if Z.of_nat (length data) >? length_ then
    Panic "square/go-jose: invalid call to newFixedSizeBuffer (len(data) > length)"
  else
    let pad := Go.make (Z.to_nat (length_ - Z.of_nat (length data))) in
    Ok (pad ++ data).

End jwk.

(** ** Collaborators outside the two files *)

(** [crypto/elliptic.Curve]: the interface the key-agreement code calls.
    Curves are compared by identity ([respKey.Curve != ecCurve]). *)
Class EllipticCurve (C : Type) := {
  curve_eq_dec :: EqDecision C;
  Params : C -> jwk.CurveParams;
  IsOnCurve : C -> Z -> Z -> bool;
  Add : C -> Z -> Z -> Z -> Z -> Z * Z;
  ScalarMult : C -> Z -> Z -> list byte -> Z * Z
}.

Module ecdsa.
Record PublicKey (C : Type) := { Curve : C; X : Z; Y : Z }.
Arguments Curve {C} _.
Arguments X {C} _.
Arguments Y {C} _.
(** [ecdsa.PrivateKey] embeds its [PublicKey]. *)
Record PrivateKey (C : Type) := { Public : PublicKey C; D : Z }.
Arguments Public {C} _.
Arguments D {C} _.
End ecdsa.

Module rsa.
Record PublicKey := { N : Z; E : Z }.
Record PrivateKey := { Public : PublicKey; D : Z }.

(** What a call of [rsa.DecryptPKCS1v15SessionKey(rand, priv, ciphertext, key)]
    can do: return an error value (or nil) after writing [written] over the
    elements of [key], or panic. *)
Inductive session_key_outcome :=
| SKReturn (written : list byte) (err : option error)
| SKPanic (msg : string).
End rsa.

(** [cipher.Block] for a 16-byte block: [Encrypt k src] and [Decrypt k src]
    are the bytes the call writes to [dst]. *)
Record Block := {
  Encrypt : list byte -> list byte;
  Decrypt : list byte -> list byte
}.

(** [jwa.ContentEncryptionAlgorithm] is a string type. *)
Definition ContentEncryptionAlgorithm := string.

(** The packages the two files import and that are taken as given: the Go
    standard library ([crypto/aes], [crypto/ecdsa], [crypto/rsa]) and the
    repository's [jwa], [concatkdf], [ecutil] and content-cipher packages.
    [rnd] is the stream of bytes [rand.Reader] delivers. *)
Class Collaborators (C : Type) := {
  (* []byte(alg.String()) *)
  KeyAlgName : KeyEncryptionAlgorithm -> list byte;
  ContentAlgName : ContentEncryptionAlgorithm -> list byte;
  (* contentcipher.NewAES(alg) followed by c.KeySize() *)
  contentcipher_KeySize : ContentEncryptionAlgorithm -> result Z;
  (* aes.NewCipher(key) *)
  aes_NewCipher : list byte -> result Block;
  (* ecdsa.GenerateKey(curve, rand.Reader) *)
  ecdsa_GenerateKey : C -> list byte -> result (ecdsa.PrivateKey C);
  (* ecutil.AllocECPointBuffer(z, curve) *)
  AllocECPointBuffer : Z -> C -> list byte;
  (* concatkdf.New(crypto.SHA256, alg, z, apu, apv, pubinfo, privinfo)
     followed by Read on a buffer of [n] bytes: the bytes read, or the
     error of Read *)
  concatkdf_Read : list byte -> list byte -> list byte -> list byte ->
                   list byte -> list byte -> nat -> result (list byte);
  (* rsa.DecryptPKCS1v15SessionKey(rand.Reader, priv, ciphertext, key) *)
  rsa_DecryptPKCS1v15SessionKey :
    rsa.PrivateKey -> list byte -> list byte -> rsa.session_key_outcome
}.

(** ** jwe/internal/keygen (not part of the two files) *)

Module keygen.

Record RandomKeyGenerate := { keysize : Z }.

Definition NewRandom (n : Z) : RandomKeyGenerate := {| keysize := n |}.

(** Modelled from the spec: [keygen.Random.Generate] belongs to package
    [jwe/internal/keygen], outside the two files embedded here; section 4.4
    of the spec has the decrypter "pre-generate a random fallback buffer" of
    the length given at construction, drawn from the process-wide CSPRNG.
    [rnd] is the stream the CSPRNG delivers; a stream that ends early is a
    failed read, a negative length cannot be allocated. *)
Definition Generate (g : RandomKeyGenerate) (rnd : list byte)
  : result (list byte) :=
  if keysize g <? 0 then Panic "makeslice: len out of range"
  else if Z.of_nat (length rnd) <? keysize g then
    Err (ErrWrap (ErrExternal "unexpected EOF")
                 "failed to read from rand.Reader")
  else Ok (take (Z.to_nat (keysize g)) rnd).

End keygen.

(** ** jwe/internal/keyenc/keyenc.go *)

Module keyenc.

(** What the code asks of its cryptographic collaborators, in call order. *)
Inductive event :=
| EvEncrypt (src : list byte)            (* kek.Encrypt(buffer, buffer) *)
| EvDecrypt (src : list byte)            (* block.Decrypt(buffer, buffer) *)
| EvConstantTimeCompare (x y : list byte)
| EvGenerate                             (* d.generator.Generate() *)
| EvRSADecrypt (ciphertext : list byte). (* rsa.DecryptPKCS1v15SessionKey *)

(** *** AES key wrap *)

Definition keywrapDefaultIV : list byte :=
  [xa6; xa6; xa6; xa6; xa6; xa6; xa6; xa6].

Definition keywrapChunkLen : nat := 8.

(** The variables of the two loops: [buffer], [r] and the calls made. *)
Record kw_state := {
  kw_buffer : list byte;
  kw_r : list (list byte);
  kw_calls : list event
}.

(** [for i := 0; i < keywrapChunkLen; i++ { buffer[i] = buffer[i] ^ tBytes[i] }] *)
Definition xor_tBytes (buffer tBytes : list byte) : list byte :=
  zip_with Go.byte_xor (take keywrapChunkLen buffer) tBytes
    ++ drop keywrapChunkLen buffer.

(** Body of the loop of [Wrap] at counter [t]; [t%n] is below [len(r)]. *)
Definition wrap_step (kek : Block) (n : nat) (st : kw_state) (t : nat)
  : kw_state :=
  let i := (t mod n)%nat in
  let buffer := Go.copy_at (kw_buffer st) keywrapChunkLen (kw_r st !!! i) in
  let src := buffer in
  let buffer := Go.copy buffer (Encrypt kek src) in
  let tBytes :=
    Go.copy (Go.make keywrapChunkLen) (Go.PutUint64 (Z.of_nat t + 1)) in
  let buffer := xor_tBytes buffer tBytes in
  {| kw_buffer := buffer;
     kw_r := <[i := Go.copy (kw_r st !!! i) (drop keywrapChunkLen buffer)]> (kw_r st);
     kw_calls := kw_calls st ++ [EvEncrypt src] |}.

(** [Wrap] up to its loop: [n], the registers [r] cut from [cek], and
    [buffer] holding the default IV. *)
Definition wrap_init (cek : list byte) : kw_state :=
  let n := (length cek / keywrapChunkLen)%nat in
  let r := map (fun i => Go.copy (Go.make keywrapChunkLen)
                                 (drop (i * keywrapChunkLen) cek))
               (seq 0 n) in
  let buffer := Go.make (keywrapChunkLen * 2) in
  let buffer := Go.copy buffer keywrapDefaultIV in
  {| kw_buffer := buffer; kw_r := r; kw_calls := [] |}.

(** [for t := 0; t < 6*n; t++ { ... }] *)
Definition wrap_loop (kek : Block) (cek : list byte) : kw_state :=
  let n := (length cek / keywrapChunkLen)%nat in
  fold_left (wrap_step kek n) (seq 0 (6 * n)) (wrap_init cek).

Definition Wrap (kek : Block) (cek : list byte)
  : list event * result (list byte) :=
  if negb (length cek mod 8 =? 0)%nat then ([], Err ErrKeywrapInput)
  else
    let n := (length cek / keywrapChunkLen)%nat in
    let st := wrap_loop kek cek in
    let out := Go.make ((n + 1) * keywrapChunkLen) in
    let out := Go.copy out (take keywrapChunkLen (kw_buffer st)) in
    let out :=
      fold_left (fun out i => Go.copy_at out ((i + 1) * 8) (kw_r st !!! i))
                (seq 0 (length (kw_r st))) out in
    (kw_calls st, Ok out).

(** Body of the loop of [Unwrap] at counter [t]. *)
Definition unwrap_step (block : Block) (n : nat) (st : kw_state) (t : nat)
  : kw_state :=
  let i := (t mod n)%nat in
  let tBytes :=
    Go.copy (Go.make keywrapChunkLen) (Go.PutUint64 (Z.of_nat t + 1)) in
  let buffer := xor_tBytes (kw_buffer st) tBytes in
  let buffer := Go.copy_at buffer keywrapChunkLen (kw_r st !!! i) in
  let src := buffer in
  let buffer := Go.copy buffer (Decrypt block src) in
  {| kw_buffer := buffer;
     kw_r := <[i := Go.copy (kw_r st !!! i) (drop keywrapChunkLen buffer)]> (kw_r st);
     kw_calls := kw_calls st ++ [EvDecrypt src] |}.

(** [Unwrap] up to its loop, for a non-negative [n]: the registers cut
    from [ciphertxt[8:]] and [buffer[:8]] holding [ciphertxt[:8]]. *)
Definition unwrap_init (ciphertxt : list byte) (n : nat) : kw_state :=
  let r := map (fun i => Go.copy (Go.make keywrapChunkLen)
                           (drop ((i + 1) * keywrapChunkLen) ciphertxt))
               (seq 0 n) in
  let buffer := Go.make (keywrapChunkLen * 2) in
  let buffer :=
    Go.copy (take keywrapChunkLen buffer) (take keywrapChunkLen ciphertxt)
      ++ drop keywrapChunkLen buffer in
  {| kw_buffer := buffer; kw_r := r; kw_calls := [] |}.

(** [for t := 6*n - 1; t >= 0; t-- { ... }] *)
Definition unwrap_loop (block : Block) (ciphertxt : list byte) (n : nat)
  : kw_state :=
  fold_left (unwrap_step block n) (rev (seq 0 (6 * n)))
            (unwrap_init ciphertxt n).

Definition Unwrap (block : Block) (ciphertxt : list byte)
  : list event * result (list byte) :=
  if negb (length ciphertxt mod keywrapChunkLen =? 0)%nat then
    ([], Err ErrKeyunwrapInput)
  else
    let n := Z.of_nat (length ciphertxt) / Z.of_nat keywrapChunkLen - 1 in
    (* make([][]byte, n) *)
    if n <? 0 then ([], Panic "makeslice: len out of range")
    else
      let n := Z.to_nat n in
      let st := unwrap_loop block ciphertxt n in
      let prefix := take keywrapChunkLen (kw_buffer st) in
      let calls :=
        kw_calls st ++ [EvConstantTimeCompare prefix keywrapDefaultIV] in
      if negb (Go.ConstantTimeCompare prefix keywrapDefaultIV) then
        (calls, Err ErrKeyUnwrapFailed)
      else
        let out := Go.make (n * keywrapChunkLen) in
        let out :=
          fold_left (fun out i =>
                       Go.copy_at out (i * keywrapChunkLen) (kw_r st !!! i))
                    (seq 0 (length (kw_r st))) out in
        (calls, Ok out).

(** *** The facades and their constructors *)

Record AESCGM := {
  AESCGM_alg : KeyEncryptionAlgorithm;
  AESCGM_sharedkey : list byte;
  AESCGM_keyID : string
}.

(** [NewAESCGM] creates a key-wrap encrypter; it does the decryption as
    well. *)
Definition NewAESCGM (alg : KeyEncryptionAlgorithm) (sharedkey : list byte)
  : result AESCGM :=
  Ok {| AESCGM_alg := alg; AESCGM_sharedkey := sharedkey; AESCGM_keyID := "" |}.

Record RSAOAEPEncrypt := {
  RSAOAEPEncrypt_alg : KeyEncryptionAlgorithm;
  RSAOAEPEncrypt_pubkey : rsa.PublicKey;
  RSAOAEPEncrypt_keyID : string
}.

Definition NewRSAOAEPEncrypt (alg : KeyEncryptionAlgorithm)
    (pubkey : rsa.PublicKey) : result RSAOAEPEncrypt :=
  match alg with
  | RSA_OAEP | RSA_OAEP_256 =>
      Ok {| RSAOAEPEncrypt_alg := alg; RSAOAEPEncrypt_pubkey := pubkey;
            RSAOAEPEncrypt_keyID := "" |}
  | _ => Err (ErrInvalidRSAOAEPEncryptAlg alg)
  end.

Record RSAPKCSEncrypt := {
  RSAPKCSEncrypt_alg : KeyEncryptionAlgorithm;
  RSAPKCSEncrypt_pubkey : rsa.PublicKey;
  RSAPKCSEncrypt_keyID : string
}.

Definition NewRSAPKCSEncrypt (alg : KeyEncryptionAlgorithm)
    (pubkey : rsa.PublicKey) : result RSAPKCSEncrypt :=
  match alg with
  | RSA1_5 =>
      Ok {| RSAPKCSEncrypt_alg := alg; RSAPKCSEncrypt_pubkey := pubkey;
            RSAPKCSEncrypt_keyID := "" |}
  | _ => Err (ErrInvalidRSAPKCSEncryptAlg alg)
  end.

Record RSAOAEPDecrypt := {
  RSAOAEPDecrypt_alg : KeyEncryptionAlgorithm;
  RSAOAEPDecrypt_privkey : rsa.PrivateKey
}.

Definition NewRSAOAEPDecrypt (alg : KeyEncryptionAlgorithm)
    (privkey : rsa.PrivateKey) : result RSAOAEPDecrypt :=
  match alg with
  | RSA_OAEP | RSA_OAEP_256 =>
      Ok {| RSAOAEPDecrypt_alg := alg; RSAOAEPDecrypt_privkey := privkey |}
  | _ => Err (ErrInvalidRSAOAEPDecryptAlg alg)
  end.

Record RSAPKCS15Decrypt := {
  RSAPKCS15Decrypt_alg : KeyEncryptionAlgorithm;
  RSAPKCS15Decrypt_privkey : rsa.PrivateKey;
  RSAPKCS15Decrypt_generator : keygen.RandomKeyGenerate
}.

(** [keysize * 2] is a product of Go [int]s. *)
Definition NewRSAPKCS15Decrypt (alg : KeyEncryptionAlgorithm)
    (privkey : rsa.PrivateKey) (keysize : Z) : RSAPKCS15Decrypt :=
  let generator := keygen.NewRandom (Go.int64 (keysize * 2)) in
  {| RSAPKCS15Decrypt_alg := alg;
     RSAPKCS15Decrypt_privkey := privkey;
     RSAPKCS15Decrypt_generator := generator |}.

Section with_collaborators.
Context {C : Type} {curve : EllipticCurve C} {collab : Collaborators C}.

Record ECDHESDecrypt := {
  ECDHESDecrypt_keyalg : KeyEncryptionAlgorithm;
  ECDHESDecrypt_contentalg : ContentEncryptionAlgorithm;
  ECDHESDecrypt_apu : list byte;
  ECDHESDecrypt_apv : list byte;
  ECDHESDecrypt_privkey : ecdsa.PrivateKey C;
  ECDHESDecrypt_pubkey : ecdsa.PublicKey C
}.

Definition NewECDHESDecrypt (keyalg : KeyEncryptionAlgorithm)
    (contentalg : ContentEncryptionAlgorithm) (pubkey : ecdsa.PublicKey C)
    (apu apv : list byte) (privkey : ecdsa.PrivateKey C) : ECDHESDecrypt :=
  {| ECDHESDecrypt_keyalg := keyalg;
     ECDHESDecrypt_contentalg := contentalg;
     ECDHESDecrypt_apu := apu;
     ECDHESDecrypt_apv := apv;
     ECDHESDecrypt_privkey := privkey;
     ECDHESDecrypt_pubkey := pubkey |}.

(** [ECMRExchangeFunc]: the exchange with the party holding the key. *)
Definition ECMRExchangeFunc : Type :=
  ecdsa.PublicKey C -> result (ecdsa.PublicKey C * ecdsa.PublicKey C).

Record ECMRDecrypt := {
  ECMRDecrypt_keyalg : KeyEncryptionAlgorithm;
  ECMRDecrypt_contentalg : ContentEncryptionAlgorithm;
  ECMRDecrypt_apu : list byte;
  ECMRDecrypt_apv : list byte;
  ECMRDecrypt_exchFn : ECMRExchangeFunc;
  ECMRDecrypt_pubkey : ecdsa.PublicKey C
}.

Definition NewECMRDecrypt (keyalg : KeyEncryptionAlgorithm)
    (contentalg : ContentEncryptionAlgorithm) (pubkey : ecdsa.PublicKey C)
    (apu apv : list byte) (exchFn : ECMRExchangeFunc) : ECMRDecrypt :=
  {| ECMRDecrypt_keyalg := keyalg;
     ECMRDecrypt_contentalg := contentalg;
     ECMRDecrypt_apu := apu;
     ECMRDecrypt_apv := apv;
     ECMRDecrypt_exchFn := exchFn;
     ECMRDecrypt_pubkey := pubkey |}.

(** *** ECDH-ES *)

(** The tail shared by [DeriveECDHES] and [DeriveECMR]: the point buffer,
    the KDF and the read of [keysize] bytes into [key]. *)
Definition read_kdf (alg apu apv pubinfo : list byte) (z : Z) (curve : C)
    (keysize : Z) : result (list byte) :=
  let zBytes := AllocECPointBuffer z curve in
  let key := Go.make (Z.to_nat keysize) in
  match concatkdf_Read alg zBytes apu apv pubinfo [] (length key) with
  | Ok read => Ok (Go.copy key read)
  | Err err => Err (ErrWrap err "failed to read kdf")
  | Panic msg => Panic msg
  end.

(** [keysize] is a [uint32], and so is [keysize*8]. *)
Definition DeriveECDHES (alg apu apv : list byte)
    (privkey : ecdsa.PrivateKey C) (pubkey : ecdsa.PublicKey C) (keysize : Z)
  : result (list byte) :=
  let pubinfo := Go.copy (Go.make 4) (Go.PutUint32 (Go.uint32 (keysize * 8))) in
  let curve := ecdsa.Curve (ecdsa.Public privkey) in
  if negb (IsOnCurve curve (ecdsa.X pubkey) (ecdsa.Y pubkey)) then
    Err ErrNotOnPrivkeyCurve
  else
    let '(z, _) := ScalarMult curve (ecdsa.X pubkey) (ecdsa.Y pubkey)
                     (Go.Bytes (ecdsa.D privkey)) in
    read_kdf alg apu apv pubinfo z curve keysize.

Definition ECDHESDecrypt_Decrypt (kw : ECDHESDecrypt) (enckey : list byte)
  : list event * result (list byte) :=
  (* Use keyalg except for when jwa.ECDH_ES *)
  let algBytes := KeyAlgName (ECDHESDecrypt_keyalg kw) in
  let selected : result (list byte * Z) :=
    match ECDHESDecrypt_keyalg kw with
    | ECDH_ES =>
        match contentcipher_KeySize (ECDHESDecrypt_contentalg kw) with
        | Ok size =>
            Ok (ContentAlgName (ECDHESDecrypt_contentalg kw), Go.uint32 size)
        | Err err => Err (ErrWrap err "failed to create content cipher")
        | Panic msg => Panic msg
        end
    | ECDH_ES_A128KW => Ok (algBytes, 16)
    | ECDH_ES_A192KW => Ok (algBytes, 24)
    | ECDH_ES_A256KW => Ok (algBytes, 32)
    | _ => Err (ErrInvalidECDHESAlg (ECDHESDecrypt_keyalg kw))
    end in
  match selected with
  | Err err => ([], Err err)
  | Panic msg => ([], Panic msg)
  | Ok (algBytes, keysize) =>
      match DeriveECDHES algBytes (ECDHESDecrypt_apu kw) (ECDHESDecrypt_apv kw)
              (ECDHESDecrypt_privkey kw) (ECDHESDecrypt_pubkey kw) keysize with
      | Err err =>
          ([], Err (ErrWrap err "failed to derive ECDHES encryption key"))
      | Panic msg => ([], Panic msg)
      | Ok key =>
          (* ECDH-ES does not wrap keys *)
          match ECDHESDecrypt_keyalg kw with
          | ECDH_ES => ([], Ok key)
          | _ =>
              match aes_NewCipher key with
              | Err err =>
                  ([], Err (ErrWrap err
                              "failed to create cipher for ECDH-ES key wrap"))
              | Panic msg => ([], Panic msg)
              | Ok block => Unwrap block enckey
              end
          end
      end
  end.

(** *** ECMR *)

Definition DeriveECMR (alg apu apv : list byte) (exchFn : ECMRExchangeFunc)
    (pubkey : ecdsa.PublicKey C) (keysize : Z) (rnd : list byte)
  : result (list byte) :=
  let pubinfo := Go.copy (Go.make 4) (Go.PutUint32 (Go.uint32 (keysize * 8))) in
  let ecCurve := ecdsa.Curve pubkey in
  match ecdsa_GenerateKey ecCurve rnd with
  | Err err => Err err
  | Panic msg => Panic msg
  | Ok tempKey =>
      let '(x, y) := Add ecCurve (ecdsa.X (ecdsa.Public tempKey))
                       (ecdsa.Y (ecdsa.Public tempKey))
                       (ecdsa.X pubkey) (ecdsa.Y pubkey) in
      let xfrKey := {| ecdsa.Curve := ecCurve; ecdsa.X := x; ecdsa.Y := y |} in
      match exchFn xfrKey with
      | Err err => Err (ErrWrap err "failed to exchange public key")
      | Panic msg => Panic msg
      | Ok (respKey, srvKey) =>
          if negb (bool_decide (ecdsa.Curve respKey = ecCurve)) then
            Err ErrCurveType
          else if negb (IsOnCurve ecCurve (ecdsa.X srvKey) (ecdsa.Y srvKey))
          then Err ErrServerKeyNotOnCurve
          else
            let '(x, y) := ScalarMult ecCurve (ecdsa.X srvKey) (ecdsa.Y srvKey)
                             (Go.Bytes (ecdsa.D tempKey)) in
            (* resp - tmp *)
            let '(z, _) := Add ecCurve (ecdsa.X respKey) (ecdsa.Y respKey)
                             x (- y) in
            read_kdf alg apu apv pubinfo z ecCurve keysize
      end
  end.

(** *** RSA PKCS#1 v1.5 *)

(** The body of [RSAPKCS15Decrypt.Decrypt], before the deferred [recover]. *)
Definition RSAPKCS15Decrypt_Decrypt_body (d : RSAPKCS15Decrypt)
    (rnd enckey : list byte) : list event * result (list byte) :=
  (* Perform some input validation. *)
  let expectedlen :=
    Z.quot (Go.BitLen (rsa.N (rsa.Public (RSAPKCS15Decrypt_privkey d)))) 8 in
  if negb (expectedlen =? Z.of_nat (length enckey)) then
    ([], Err (ErrInputSize expectedlen (Z.of_nat (length enckey))))
  else
    match keygen.Generate (RSAPKCS15Decrypt_generator d) rnd with
    | Err _ => ([EvGenerate], Err ErrGenerateKey)
    | Panic msg => ([EvGenerate], Panic msg)
    | Ok bk =>
        let cek := bk in
        let calls := [EvGenerate; EvRSADecrypt enckey] in
        match rsa_DecryptPKCS1v15SessionKey (RSAPKCS15Decrypt_privkey d)
                enckey cek with
        | rsa.SKPanic msg => (calls, Panic msg)
        | rsa.SKReturn written (Some err) =>
            (calls, Err (ErrWrap err "failed to decrypt via PKCS1v15"))
        | rsa.SKReturn written None => (calls, Ok (Go.copy cek written))
        end
    end.

(** The deferred [_ = recover()]: a panic in the body makes [Decrypt]
    return the zero values of its results, a nil slice and a nil error. *)
Definition RSAPKCS15Decrypt_Decrypt (d : RSAPKCS15Decrypt)
    (rnd enckey : list byte)
  : list event * (option (list byte) * option error) :=
  match RSAPKCS15Decrypt_Decrypt_body d rnd enckey with
  | (calls, Ok cek) => (calls, (Some cek, None))
  | (calls, Err err) => (calls, (None, Some err))
  | (calls, Panic _) => (calls, (None, None))
  end.

End with_collaborators.

Arguments ECMRExchangeFunc C : clear implicits.

End keyenc.

(** ** Predicates of the statements *)

(** A 128-bit block cipher under one key: [Encrypt] fills the 16-byte block
    and [Decrypt] undoes it. *)
Definition valid_block_cipher (k : Block) : Prop :=
  forall b : list byte,
    length b = 16%nat ->
    length (Encrypt k b) = 16%nat /\ Decrypt k (Encrypt k b) = b.

(** Shape of the loop variables of [Wrap] and [Unwrap]: a 16-byte [buffer]
    and [n] registers of 8 bytes. *)
Definition kw_wf (n : nat) (st : keyenc.kw_state) : Prop :=
  length (keyenc.kw_buffer st) = 16%nat /\
  length (keyenc.kw_r st) = n /\
  Forall (fun b => length b = 8%nat) (keyenc.kw_r st).

(** Two loop states agree on [buffer[:8]] and on the registers; the rest of
    [buffer] is overwritten before it is read. *)
Definition kw_same (st1 st2 : keyenc.kw_state) : Prop :=
  take 8 (keyenc.kw_buffer st1) = take 8 (keyenc.kw_buffer st2) /\
  keyenc.kw_r st1 = keyenc.kw_r st2.

Section ecmr_values.
Context {C : Type} {curve : EllipticCurve C}.

(** The blinded key [xfrKey] that [DeriveECMR] hands to the exchange
    function: the sum of the temporary public key and the recipient key. *)
Definition ecmr_xfrKey (pubkey : ecdsa.PublicKey C)
    (tempKey : ecdsa.PrivateKey C) : ecdsa.PublicKey C :=
  let sum := Add (ecdsa.Curve pubkey)
               (ecdsa.X (ecdsa.Public tempKey)) (ecdsa.Y (ecdsa.Public tempKey))
               (ecdsa.X pubkey) (ecdsa.Y pubkey) in
  {| ecdsa.Curve := ecdsa.Curve pubkey; ecdsa.X := sum.1; ecdsa.Y := sum.2 |}.

(** The coordinate [z] that [DeriveECMR] feeds to the KDF: the first
    coordinate of [respKey - tempKey.D * srvKey]. *)
Definition ecmr_z (pubkey : ecdsa.PublicKey C) (tempKey : ecdsa.PrivateKey C)
    (respKey srvKey : ecdsa.PublicKey C) : Z :=
  let tmp := ScalarMult (ecdsa.Curve pubkey) (ecdsa.X srvKey) (ecdsa.Y srvKey)
               (Go.Bytes (ecdsa.D tempKey)) in
  (Add (ecdsa.Curve pubkey) (ecdsa.X respKey) (ecdsa.Y respKey)
       tmp.1 (- tmp.2)).1.

(** The [SuppPubInfo] field: [keysize*8] as 4 big-endian bytes. *)
Definition pubinfo_of (keysize : Z) : list byte :=
  Go.copy (Go.make 4) (Go.PutUint32 (Go.uint32 (keysize * 8))).

End ecmr_values.

(** ** Small instances on which the definitions are run *)

Module Examples.

(** A 16-byte permutation standing for a block cipher: byte reversal. *)
Definition reversal_cipher : Block :=
  {| Encrypt := @rev byte; Decrypt := @rev byte |}.

Definition bytes_of (l : list Z) : list byte := map Go.byte_of_Z l.

(** Two curve identities over one toy group: the points [(x, 2x)] of
    [Z/101] under addition, with base point [(1, 2)]. *)
Inductive test_curve := CurveA | CurveB.

#[export] Instance test_curve_eq_dec : EqDecision test_curve.
Proof. solve_decision. Defined.

#[export] Instance test_curve_ops : EllipticCurve test_curve := {|
  Params := fun _ => {| jwk.BitSize := 7; jwk.Name := "toy-101" |};
  IsOnCurve := fun _ x y => (y =? (2 * x) mod 101) && (0 <=? x) && (x <? 101);
  Add := fun _ x1 y1 x2 y2 => ((x1 + x2) mod 101, (y1 + y2) mod 101);
  ScalarMult := fun _ x y k =>
    ((Go.SetBytes k * x) mod 101, (Go.SetBytes k * y) mod 101)
|}.

Definition key_alg_name (alg : KeyEncryptionAlgorithm) : string :=
  match alg with
  | DIRECT => "dir" | A128KW => "A128KW" | A192KW => "A192KW"
  | A256KW => "A256KW" | ECDH_ES => "ECDH-ES"
  | ECDH_ES_A128KW => "ECDH-ES+A128KW" | ECDH_ES_A192KW => "ECDH-ES+A192KW"
  | ECDH_ES_A256KW => "ECDH-ES+A256KW" | ECMR => "ECMR"
  | RSA1_5 => "RSA1_5" | RSA_OAEP => "RSA-OAEP"
  | RSA_OAEP_256 => "RSA-OAEP-256" | OtherKeyAlg name => name
  end.

(** Stand-ins for the collaborators.  The RSA stand-in follows the one
    documented error of [rsa.DecryptPKCS1v15SessionKey] (a ciphertext that
    is, as a number, not below the modulus) and otherwise reports nothing and
    leaves [key] as it was, as the real function does on bad padding. *)
#[export] Instance test_collaborators : Collaborators test_curve := {|
  KeyAlgName := fun alg => String.list_byte_of_string (key_alg_name alg);
  ContentAlgName := fun alg => String.list_byte_of_string alg;
  contentcipher_KeySize := fun alg =>
    if String.eqb alg "A128GCM" then Ok 16
    else if String.eqb alg "A256GCM" then Ok 32
    else Err (ErrExternal "invalid content cipher algorithm");
  aes_NewCipher := fun key =>
    if bool_decide (length key ∈ [16; 24; 32]%nat) then Ok reversal_cipher
    else Err (ErrExternal "crypto/aes: invalid key size");
  ecdsa_GenerateKey := fun curve rnd =>
    match rnd with
    | [] => Err (ErrExternal "unexpected EOF")
    | b :: _ =>
        let d := Go.byte_to_Z b mod 100 + 1 in
        Ok {| ecdsa.Public := {| ecdsa.Curve := curve; ecdsa.X := d;
                                 ecdsa.Y := (2 * d) mod 101 |};
              ecdsa.D := d |}
    end;
  AllocECPointBuffer := fun z curve =>
    match jwk.newFixedSizeBuffer (Go.Bytes z) (jwk.curveSize (Params curve)) with
    | Ok buf => buf
    | _ => []
    end;
  concatkdf_Read := fun alg z apu apv pubinfo privinfo n =>
    Ok (take n (z ++ alg ++ apu ++ apv ++ pubinfo ++ privinfo
                  ++ replicate n x00));
  rsa_DecryptPKCS1v15SessionKey := fun priv ciphertext key =>
    if rsa.N (rsa.Public priv) <=? Go.SetBytes ciphertext then
      rsa.SKReturn key (Some (ErrExternal "crypto/rsa: decryption error"))
    else rsa.SKReturn key None
|}.

(** Keys on the toy group, and three exchange functions: one that fails,
    one that answers on the other curve identity, and one that multiplies
    by the secret 7. *)
Definition recipient_pub : ecdsa.PublicKey test_curve :=
  {| ecdsa.Curve := CurveA; ecdsa.X := 5; ecdsa.Y := 10 |}.
Definition recipient_priv : ecdsa.PrivateKey test_curve :=
  {| ecdsa.Public := {| ecdsa.Curve := CurveA; ecdsa.X := 3; ecdsa.Y := 6 |};
     ecdsa.D := 3 |}.

Definition exch_fails : keyenc.ECMRExchangeFunc test_curve :=
  fun _ => Err (ErrExternal "connection refused").
Definition exch_other_curve : keyenc.ECMRExchangeFunc test_curve :=
  fun k => Ok ({| ecdsa.Curve := CurveB; ecdsa.X := ecdsa.X k;
                  ecdsa.Y := ecdsa.Y k |},
               {| ecdsa.Curve := CurveA; ecdsa.X := 7; ecdsa.Y := 14 |}).
Definition exch_secret_7 : keyenc.ECMRExchangeFunc test_curve :=
  fun k => Ok ({| ecdsa.Curve := ecdsa.Curve k;
                  ecdsa.X := (7 * ecdsa.X k) mod 101;
                  ecdsa.Y := (7 * ecdsa.Y k) mod 101 |},
               {| ecdsa.Curve := ecdsa.Curve k; ecdsa.X := 7; ecdsa.Y := 14 |}).

(** A private key whose modulus has 2048 bits, and one with 2047 bits. *)
Definition key2048 : rsa.PrivateKey :=
  {| rsa.Public := {| rsa.N := 2 ^ 2047 + 1; rsa.E := 65537 |}; rsa.D := 1 |}.
Definition key2047 : rsa.PrivateKey :=
  {| rsa.Public := {| rsa.N := 2 ^ 2046 + 1; rsa.E := 65537 |}; rsa.D := 1 |}.

End Examples.

(** * The rest of the two files *)

(** ** More results and collaborators *)

(** [jwa.EllipticCurveAlgorithm], a string type: the three curve names and
    any other string. *)
Module jwa.
Inductive EllipticCurveAlgorithm :=
| P256 | P384 | P521
| OtherCurve (name : string).
End jwa.

(** Errors of the functions below that [error] does not list. *)
Inductive failure :=
| Known (e : error)
| ErrInvalidKeyGenerated
    (* key generator generated invalid key (expected ByteWithECPrivateKey) *)
| ErrRSAOAEPRequired
    (* failed to generate key encrypter for RSA-OAEP:
       RSA_OAEP/RSA_OAEP_256 required *)
| ErrInvalidECMRAlg (alg : KeyEncryptionAlgorithm)
    (* invalid ECMR key wrap algorithm (%s) *)
| ErrInvalidEllipticCurve        (* invalid elliptic curve %s *)
| ErrInvalidCurveAlgorithm (alg : jwa.EllipticCurveAlgorithm)
    (* invalid curve algorithm %s *)
| Wrapped (cause : failure) (msg : string). (* errors.Wrap(cause, msg) *)

Inductive outcome (A : Type) :=
| Done (a : A)
| Failed (f : failure)
| Panicked (msg : string).
Arguments Done {A} a.
Arguments Failed {A} f.
Arguments Panicked {A} msg.

Definition lift {A} (r : result A) : outcome A :=
  match r with
  | Ok a => Done a
  | Err e => Failed (Known e)
  | Panic msg => Panicked msg
  end.

(** The two byte sources of package [keygen] that [keyenc.go] handles:
    [ByteKey] and [ByteWithECPrivateKey], which embeds a [ByteKey]. *)
Inductive ByteSource (C : Type) :=
| ByteKey (b : list byte)
| ByteWithECPrivateKey (b : list byte) (PrivateKey : ecdsa.PrivateKey C).
Arguments ByteKey {C} b.
Arguments ByteWithECPrivateKey {C} b PrivateKey.

(** [sha1.New()] and [sha256.New()]. *)
Inductive oaep_hash := SHA1 | SHA256.

(** [crypto/rsa] encryption and OAEP decryption, taken as given; [rnd] is
    what [rand.Reader] delivers. *)
Class RSAEncryption := {
  (* rsa.EncryptPKCS1v15(rand.Reader, pub, msg) *)
  rsa_EncryptPKCS1v15 :
    list byte -> rsa.PublicKey -> list byte -> result (list byte);
  (* rsa.EncryptOAEP(hash, rand.Reader, pub, msg, label) *)
  rsa_EncryptOAEP :
    oaep_hash -> list byte -> rsa.PublicKey -> list byte -> list byte ->
    result (list byte);
  (* rsa.DecryptOAEP(hash, rand.Reader, priv, ciphertext, label) *)
  rsa_DecryptOAEP :
    oaep_hash -> list byte -> rsa.PrivateKey -> list byte -> list byte ->
    result (list byte)
}.

(** [elliptic.P256()], [elliptic.P384()] and [elliptic.P521()]. *)
Class StdCurves (C : Type) := {
  elliptic_P256 : C;
  elliptic_P384 : C;
  elliptic_P521 : C
}.

(** What [jwk/ecdsa.go] uses of the rest of package [jwk] and of
    [internal/base64]: the header fields of a key other than [x], [y] and
    [d], written by [k.Set(ECDSACrvKey, v)] and read by [k.Crv()]; the
    headers of a key made by [newECDSAPublicKey()]; and
    [base64.EncodeToString]. *)
Class JWKHeaders (H : Type) := {
  Set_ECDSACrvKey : H -> jwa.EllipticCurveAlgorithm -> result H;
  Crv : H -> jwa.EllipticCurveAlgorithm;
  new_headers : H;
  base64_EncodeToString : list byte -> string
}.

(** ** keyenc.go, continued *)

Module keyenc2.
Import keyenc.

Section with_collaborators.
Context {C : Type} {curve : EllipticCurve C} {collab : Collaborators C}
        {rsaenc : RSAEncryption}.

(** [AESCGM.Decrypt] *)
Definition AESCGM_Decrypt (kw : AESCGM) (enckey : list byte)
  : list event * result (list byte) :=
  match aes_NewCipher (AESCGM_sharedkey kw) with
  | Err err => ([], Err (ErrWrap err "failed to create cipher from shared key"))
  | Panic msg => ([], Panic msg)
  | Ok block =>
      match Unwrap block enckey with
      | (calls, Err err) => (calls, Err (ErrWrap err "failed to unwrap data"))
      | (calls, Panic msg) => (calls, Panic msg)
      | (calls, Ok cek) => (calls, Ok cek)
      end
  end.

(** [AESCGM.Encrypt] *)
Definition AESCGM_Encrypt (kw : AESCGM) (cek : list byte)
  : list event * result (ByteSource C) :=
  match aes_NewCipher (AESCGM_sharedkey kw) with
  | Err err => ([], Err (ErrWrap err "failed to create cipher from shared key"))
  | Panic msg => ([], Panic msg)
  | Ok block =>
      match Wrap block cek with
      | (calls, Err err) =>
          (calls, Err (ErrWrap err "keywrap: failed to wrap key"))
      | (calls, Panic msg) => (calls, Panic msg)
      | (calls, Ok encrypted) => (calls, Ok (ByteKey encrypted))
      end
  end.

(** [ECDHESEncrypt]; [generator.Generate()] is a function of what
    [rand.Reader] delivers. *)
Record ECDHESEncrypt := {
  ECDHESEncrypt_algorithm : KeyEncryptionAlgorithm;
  ECDHESEncrypt_generator : list byte -> result (ByteSource C);
  ECDHESEncrypt_keyID : string
}.

(** [ECDHESEncrypt.Encrypt] *)
Definition ECDHESEncrypt_Encrypt (kw : ECDHESEncrypt) (cek rnd : list byte)
  : list event * outcome (ByteSource C) :=
  match ECDHESEncrypt_generator kw rnd with
  | Err err =>
      ([], Failed (Known (ErrWrap err "failed to create key generator")))
  | Panic msg => ([], Panicked msg)
  | Ok (ByteKey _) => ([], Failed ErrInvalidKeyGenerated)
  | Ok (ByteWithECPrivateKey bytes PrivateKey) =>
      match aes_NewCipher bytes with
      | Err err =>
          ([], Failed (Known (ErrWrap err
                                "failed to generate cipher from generated key")))
      | Panic msg => ([], Panicked msg)
      | Ok block =>
          match Wrap block cek with
          | (calls, Err err) =>
              (calls, Failed (Known (ErrWrap err "failed to wrap data")))
          | (calls, Panic msg) => (calls, Panicked msg)
          | (calls, Ok jek) =>
              (calls, Done (ByteWithECPrivateKey jek PrivateKey))
          end
      end
  end.

(** [ECMRDecrypt.Decrypt] *)
Definition ECMRDecrypt_Decrypt (kw : ECMRDecrypt) (enckey rnd : list byte)
  : list event * outcome (list byte) :=
  (* Use keyalg except for when jwa.ECMR *)
  let algBytes := KeyAlgName (ECMRDecrypt_keyalg kw) in
  let selected : outcome (list byte * Z) :=
    match ECMRDecrypt_keyalg kw with
    | ECMR =>
        match contentcipher_KeySize (ECMRDecrypt_contentalg kw) with
        | Ok size =>
            Done (ContentAlgName (ECMRDecrypt_contentalg kw), Go.uint32 size)
        | Err err =>
            Failed (Known (ErrWrap err "failed to create content cipher"))
        | Panic msg => Panicked msg
        end
    | _ => Failed (ErrInvalidECMRAlg (ECMRDecrypt_keyalg kw))
    end in
  match selected with
  | Failed f => ([], Failed f)
  | Panicked msg => ([], Panicked msg)
  | Done (algBytes, keysize) =>
      match DeriveECMR algBytes (ECMRDecrypt_apu kw) (ECMRDecrypt_apv kw)
              (ECMRDecrypt_exchFn kw) (ECMRDecrypt_pubkey kw) keysize rnd with
      | Err err =>
          ([], Failed (Known (ErrWrap err
                                "failed to derive ECMR encryption key")))
      | Panic msg => ([], Panicked msg)
      | Ok key =>
          (* ECMR does not wrap keys *)
          match ECMRDecrypt_keyalg kw with
          | ECMR => ([], Done key)
          | _ =>
              match aes_NewCipher key with
              | Err err =>
                  ([], Failed (Known (ErrWrap err
                                 "failed to create cipher for ECMR key wrap")))
              | Panic msg => ([], Panicked msg)
              | Ok block =>
                  let '(calls, res) := Unwrap block enckey in (calls, lift res)
              end
          end
      end
  end.

(** [RSAPKCSEncrypt.Encrypt] *)
Definition RSAPKCSEncrypt_Encrypt (e : RSAPKCSEncrypt) (cek rnd : list byte)
  : result (ByteSource C) :=
  match RSAPKCSEncrypt_alg e with
  | RSA1_5 =>
      match rsa_EncryptPKCS1v15 rnd (RSAPKCSEncrypt_pubkey e) cek with
      | Err err => Err (ErrWrap err "failed to encrypt using PKCS1v15")
      | Panic msg => Panic msg
      | Ok encrypted => Ok (ByteKey encrypted)
      end
  | _ => Err (ErrInvalidRSAPKCSEncryptAlg (RSAPKCSEncrypt_alg e))
  end.

(** The [switch] on the algorithm that picks the hash of OAEP. *)
Definition oaep_hash_of (alg : KeyEncryptionAlgorithm) : outcome oaep_hash :=
  match alg with
  | RSA_OAEP => Done SHA1
  | RSA_OAEP_256 => Done SHA256
  | _ => Failed ErrRSAOAEPRequired
  end.

(** [RSAOAEPEncrypt.Encrypt] *)
Definition RSAOAEPEncrypt_Encrypt (e : RSAOAEPEncrypt) (cek rnd : list byte)
  : outcome (ByteSource C) :=
  match oaep_hash_of (RSAOAEPEncrypt_alg e) with
  | Failed f => Failed f
  | Panicked msg => Panicked msg
  | Done hash =>
      match rsa_EncryptOAEP hash rnd (RSAOAEPEncrypt_pubkey e) cek [] with
      | Err err => Failed (Known (ErrWrap err "failed to OAEP encrypt"))
      | Panic msg => Panicked msg
      | Ok encrypted => Done (ByteKey encrypted)
      end
  end.

(** [RSAOAEPDecrypt.Decrypt] *)
Definition RSAOAEPDecrypt_Decrypt (d : RSAOAEPDecrypt) (enckey rnd : list byte)
  : outcome (list byte) :=
  match oaep_hash_of (RSAOAEPDecrypt_alg d) with
  | Failed f => Failed f
  | Panicked msg => Panicked msg
  | Done hash =>
      lift (rsa_DecryptOAEP hash rnd (RSAOAEPDecrypt_privkey d) enckey [])
  end.

End with_collaborators.

Arguments ECDHESEncrypt C : clear implicits.

(** [DirectDecrypt.Decrypt] returns a copy of the embedded key. *)
Record DirectDecrypt := { DirectDecrypt_Key : list byte }.

Definition DirectDecrypt_Decrypt (d : DirectDecrypt) : result (list byte) :=
  let cek := Go.make (length (DirectDecrypt_Key d)) in
  Ok (Go.copy cek (DirectDecrypt_Key d)).

End keyenc2.

(** ** jwk/ecdsa.go, continued *)

Module jwk2.

Section with_headers.
Context {C : Type} {curve : EllipticCurve C} {std : StdCurves C}
        {H : Type} {hdr : JWKHeaders H}.

(** The fields of [ecdsaPublicKey] and [ecdsaPrivateKey] that this file
    touches: [x], [y], [d], and the headers behind [Set] and [Crv]. *)
Record ecdsaPublicKey := {
  ecdsaPublicKey_headers : H;
  ecdsaPublicKey_x : list byte;
  ecdsaPublicKey_y : list byte
}.

Record ecdsaPrivateKey := {
  ecdsaPrivateKey_headers : H;
  ecdsaPrivateKey_x : list byte;
  ecdsaPrivateKey_y : list byte;
  ecdsaPrivateKey_d : list byte
}.

Definition newECDSAPublicKey : ecdsaPublicKey :=
  {| ecdsaPublicKey_headers := new_headers;
     ecdsaPublicKey_x := []; ecdsaPublicKey_y := [] |}.

Definition NewECDSAPublicKey : ecdsaPublicKey := newECDSAPublicKey.

Definition newECDSAPrivateKey : ecdsaPrivateKey :=
  {| ecdsaPrivateKey_headers := new_headers;
     ecdsaPrivateKey_x := []; ecdsaPrivateKey_y := [];
     ecdsaPrivateKey_d := [] |}.

Definition NewECDSAPrivateKey : ecdsaPrivateKey := newECDSAPrivateKey.

(** The [switch rawKey.Curve] of the two [FromRaw]: the curve name to set,
    if the curve is one of the three. *)
Definition curve_algorithm (c : C) : option jwa.EllipticCurveAlgorithm :=
  if bool_decide (c = elliptic_P256) then Some jwa.P256
  else if bool_decide (c = elliptic_P384) then Some jwa.P384
  else if bool_decide (c = elliptic_P521) then Some jwa.P521
  else None.

(** [FromRaw] of [ecdsaPublicKey]: the key as the call leaves it, and what
    the call returns.  [x] and [y] are assigned before the curve is looked
    at. *)
Definition ecdsaPublicKey_FromRaw (k : ecdsaPublicKey)
    (rawKey : ecdsa.PublicKey C) : ecdsaPublicKey * outcome unit :=
  let k := {| ecdsaPublicKey_headers := ecdsaPublicKey_headers k;
              ecdsaPublicKey_x := Go.Bytes (ecdsa.X rawKey);
              ecdsaPublicKey_y := Go.Bytes (ecdsa.Y rawKey) |} in
  match curve_algorithm (ecdsa.Curve rawKey) with
  | Some alg =>
      match Set_ECDSACrvKey (ecdsaPublicKey_headers k) alg with
      | Err err => (k, Failed (Known (ErrWrap err "failed to set header")))
      | Panic msg => (k, Panicked msg)
      | Ok headers =>
          ({| ecdsaPublicKey_headers := headers;
              ecdsaPublicKey_x := ecdsaPublicKey_x k;
              ecdsaPublicKey_y := ecdsaPublicKey_y k |}, Done tt)
      end
  | None => (k, Failed ErrInvalidEllipticCurve)
  end.

(** [FromRaw] of [ecdsaPrivateKey]: [d] is assigned after the curve is set. *)
Definition ecdsaPrivateKey_FromRaw (k : ecdsaPrivateKey)
    (rawKey : ecdsa.PrivateKey C) : ecdsaPrivateKey * outcome unit :=
  let k := {| ecdsaPrivateKey_headers := ecdsaPrivateKey_headers k;
              ecdsaPrivateKey_x := Go.Bytes (ecdsa.X (ecdsa.Public rawKey));
              ecdsaPrivateKey_y := Go.Bytes (ecdsa.Y (ecdsa.Public rawKey));
              ecdsaPrivateKey_d := ecdsaPrivateKey_d k |} in
  match curve_algorithm (ecdsa.Curve (ecdsa.Public rawKey)) with
  | Some alg =>
      match Set_ECDSACrvKey (ecdsaPrivateKey_headers k) alg with
      | Err err => (k, Failed (Known (ErrWrap err "failed to write header")))
      | Panic msg => (k, Panicked msg)
      | Ok headers =>
          ({| ecdsaPrivateKey_headers := headers;
              ecdsaPrivateKey_x := ecdsaPrivateKey_x k;
              ecdsaPrivateKey_y := ecdsaPrivateKey_y k;
              ecdsaPrivateKey_d := Go.Bytes (ecdsa.D rawKey) |}, Done tt)
      end
  | None => (k, Failed ErrInvalidEllipticCurve)
  end.

Definition buildECDSAPublicKey (alg : jwa.EllipticCurveAlgorithm)
    (xbuf ybuf : list byte) : outcome (ecdsa.PublicKey C) :=
  let curve :=
    match alg with
    | jwa.P256 => Some elliptic_P256
    | jwa.P384 => Some elliptic_P384
    | jwa.P521 => Some elliptic_P521
    | _ => None
    end in
  match curve with
  | None => Failed (ErrInvalidCurveAlgorithm alg)
  | Some curve =>
      let x := Go.SetBytes xbuf in
      let y := Go.SetBytes ybuf in
      Done {| ecdsa.Curve := curve; ecdsa.X := x; ecdsa.Y := y |}
  end.

(** [ecdsaPublicKey.Raw(v)] for a [v] that takes an [*ecdsa.PublicKey]: the
    key that [assignRawResult] stores in [v]. *)
Definition ecdsaPublicKey_Raw (k : ecdsaPublicKey)
  : outcome (ecdsa.PublicKey C) :=
  match buildECDSAPublicKey (Crv (ecdsaPublicKey_headers k))
          (ecdsaPublicKey_x k) (ecdsaPublicKey_y k) with
  | Failed f => Failed (Wrapped f "failed to build public key")
  | Panicked msg => Panicked msg
  | Done pubk => Done pubk
  end.

(** [ecdsaPrivateKey.Raw(v)] for a [v] that takes an [*ecdsa.PrivateKey]. *)
Definition ecdsaPrivateKey_Raw (k : ecdsaPrivateKey)
  : outcome (ecdsa.PrivateKey C) :=
  match buildECDSAPublicKey (Crv (ecdsaPrivateKey_headers k))
          (ecdsaPrivateKey_x k) (ecdsaPrivateKey_y k) with
  | Failed f => Failed (Wrapped f "failed to build public key")
  | Panicked msg => Panicked msg
  | Done pubk =>
      let d := Go.SetBytes (ecdsaPrivateKey_d k) in
      Done {| ecdsa.Public := pubk; ecdsa.D := d |}
  end.

(** [ecdsaPrivateKey.PublicKey] *)
Definition ecdsaPrivateKey_PublicKey (k : ecdsaPrivateKey)
  : outcome ecdsaPublicKey :=
  match ecdsaPrivateKey_Raw k with
  | Failed f =>
      Failed (Wrapped f "failed to materialize ECDSA private key")
  | Panicked msg => Panicked msg
  | Done privk =>
      let newKey := NewECDSAPublicKey in
      match ecdsaPublicKey_FromRaw newKey (ecdsa.Public privk) with
      | (_, Failed f) =>
          Failed (Wrapped f "failed to initialize ECDSAPublicKey")
      | (_, Panicked msg) => Panicked msg
      | (newKey, Done _) => Done newKey
      end
  end.

(** The double quote. *)
Definition dq : string := String (Ascii.ascii_of_byte x22) EmptyString.

(** [ecdsaThumbprint]: [hash] maps the text written to [hash.New()] to
    [h.Sum(nil)]. *)
Definition ecdsaThumbprint (hash : string -> list byte) (crv x y : string)
  : list byte :=
  hash (("{" +:+ dq +:+ "crv" +:+ dq +:+ ":" +:+ dq)
        +:+ crv
        +:+ (dq +:+ "," +:+ dq +:+ "kty" +:+ dq +:+ ":" +:+ dq +:+ "EC" +:+ dq
             +:+ "," +:+ dq +:+ "x" +:+ dq +:+ ":" +:+ dq)
        +:+ x
        +:+ (dq +:+ "," +:+ dq +:+ "y" +:+ dq +:+ ":" +:+ dq)
        +:+ y
        +:+ (dq +:+ "}")).

(** The body shared by the two [Thumbprint] methods once the key is
    materialized; the arguments of [ecdsaThumbprint] are evaluated from
    left to right. *)
Definition thumbprint_of (hash : string -> list byte)
    (key : ecdsa.PublicKey C) : outcome (list byte) :=
  let curveSize := jwk.curveSize (Params (ecdsa.Curve key)) in
  match jwk.newFixedSizeBuffer (Go.Bytes (ecdsa.X key)) curveSize with
  | Err err => Failed (Known err)
  | Panic msg => Panicked msg
  | Ok xbuf =>
      match jwk.newFixedSizeBuffer (Go.Bytes (ecdsa.Y key)) curveSize with
      | Err err => Failed (Known err)
      | Panic msg => Panicked msg
      | Ok ybuf =>
          Done (ecdsaThumbprint hash
                  (jwk.Name (Params (ecdsa.Curve key)))
                  (base64_EncodeToString xbuf)
                  (base64_EncodeToString ybuf))
      end
  end.

(** [ecdsaPublicKey.Thumbprint] *)
Definition ecdsaPublicKey_Thumbprint (k : ecdsaPublicKey)
    (hash : string -> list byte) : outcome (list byte) :=
  match ecdsaPublicKey_Raw k with
  | Failed f =>
      Failed (Wrapped f
        "failed to materialize ecdsa.PublicKey for thumbprint generation")
  | Panicked msg => Panicked msg
  | Done key => thumbprint_of hash key
  end.

(** [ecdsaPrivateKey.Thumbprint] *)
Definition ecdsaPrivateKey_Thumbprint (k : ecdsaPrivateKey)
    (hash : string -> list byte) : outcome (list byte) :=
  match ecdsaPrivateKey_Raw k with
  | Failed f =>
      Failed (Wrapped f
        "failed to materialize ecdsa.PrivateKey for thumbprint generation")
  | Panicked msg => Panicked msg
  | Done key => thumbprint_of hash (ecdsa.Public key)
  end.

End with_headers.

Arguments ecdsaPublicKey H : clear implicits.
Arguments ecdsaPrivateKey H : clear implicits.

End jwk2.

(** [Set] then [Crv] gives back the curve name that was set. *)
Definition headers_keep_crv {H : Type} {hdr : JWKHeaders H} : Prop :=
  forall (h h' : H) (alg : jwa.EllipticCurveAlgorithm),
    Set_ECDSACrvKey h alg = Ok h' -> Crv h' = alg.

(** A cipher that is a permutation of the 16-byte blocks: also [Encrypt]
    undoes [Decrypt]. *)
Definition block_permutation (k : Block) : Prop :=
  valid_block_cipher k /\
  forall b : list byte,
    length b = 16%nat ->
    length (Decrypt k b) = 16%nat /\ Encrypt k (Decrypt k b) = b.

(** A call of the block cipher on a full 16-byte block. *)
Definition encrypts_block (ev : keyenc.event) : Prop :=
  exists src, ev = keyenc.EvEncrypt src /\ length src = 16%nat.
Definition decrypts_block (ev : keyenc.event) : Prop :=
  exists src, ev = keyenc.EvDecrypt src /\ length src = 16%nat.

(** ** More small instances *)

Module Examples2.
Import Examples.

(** The three named curves, with their parameters; the arithmetic is the
    stand-in of [test_curve], which [jwk/ecdsa.go] never calls. *)
Inductive named_curve := NamedP256 | NamedP384 | NamedP521.

#[export] Instance named_curve_eq_dec : EqDecision named_curve.
Proof. solve_decision. Defined.

#[export] Instance named_curve_ops : EllipticCurve named_curve := {|
  Params := fun c =>
    match c with
    | NamedP256 => {| jwk.BitSize := 256; jwk.Name := "P-256" |}
    | NamedP384 => {| jwk.BitSize := 384; jwk.Name := "P-384" |}
    | NamedP521 => {| jwk.BitSize := 521; jwk.Name := "P-521" |}
    end;
  IsOnCurve := fun _ x y => (y =? (2 * x) mod 101) && (0 <=? x) && (x <? 101);
  Add := fun _ x1 y1 x2 y2 => ((x1 + x2) mod 101, (y1 + y2) mod 101);
  ScalarMult := fun _ x y k =>
    ((Go.SetBytes k * x) mod 101, (Go.SetBytes k * y) mod 101)
|}.

#[export] Instance named_std_curves : StdCurves named_curve := {|
  elliptic_P256 := NamedP256;
  elliptic_P384 := NamedP384;
  elliptic_P521 := NamedP521
|}.

(** Headers that hold the curve name and nothing else; an identity
    "base64" and an identity "hash", enough to tell texts apart. *)
#[export] Instance crv_only_headers : JWKHeaders jwa.EllipticCurveAlgorithm := {|
  Set_ECDSACrvKey := fun _ alg => Ok alg;
  Crv := fun h => h;
  new_headers := jwa.OtherCurve "";
  base64_EncodeToString := fun b => String.string_of_list_byte b
|}.

Definition text_hash (s : string) : list byte := String.list_byte_of_string s.

(** A setting in which [CurveB] is none of the three named curves. *)
Definition curve_A_only : StdCurves test_curve :=
  {| elliptic_P256 := CurveA; elliptic_P384 := CurveA;
     elliptic_P521 := CurveA |}.

(** Collaborators whose RSA primitive panics, as Go before 1.3.1 could. *)
Definition panicking_collaborators : Collaborators test_curve :=
  {| KeyAlgName := KeyAlgName (Collaborators := test_collaborators);
     ContentAlgName := ContentAlgName (Collaborators := test_collaborators);
     contentcipher_KeySize :=
       contentcipher_KeySize (Collaborators := test_collaborators);
     aes_NewCipher := aes_NewCipher (Collaborators := test_collaborators);
     ecdsa_GenerateKey :=
       ecdsa_GenerateKey (Collaborators := test_collaborators);
     AllocECPointBuffer :=
       AllocECPointBuffer (Collaborators := test_collaborators);
     concatkdf_Read := concatkdf_Read (Collaborators := test_collaborators);
     rsa_DecryptPKCS1v15SessionKey := fun _ _ _ =>
       rsa.SKPanic "runtime error: index out of range" |}.

Definition raw_P256 : ecdsa.PrivateKey named_curve :=
  {| ecdsa.Public := {| ecdsa.Curve := NamedP256; ecdsa.X := 258;
                        ecdsa.Y := 772 |};
     ecdsa.D := 7 |}.

Definition jwk_P256 : jwk2.ecdsaPrivateKey jwa.EllipticCurveAlgorithm :=
  {| jwk2.ecdsaPrivateKey_headers := jwa.P256;
     jwk2.ecdsaPrivateKey_x := bytes_of [1; 2];
     jwk2.ecdsaPrivateKey_y := bytes_of [3; 4];
     jwk2.ecdsaPrivateKey_d := bytes_of [7] |}.

(** RSA stand-ins: "encryption" prefixes the message with a byte naming the
    hash, "decryption" checks and strips it. *)
#[export] Instance tagging_rsa : RSAEncryption := {|
  rsa_EncryptPKCS1v15 := fun rnd pub msg => Ok (x02 :: msg);
  rsa_EncryptOAEP := fun hash rnd pub msg label =>
    Ok ((match hash with SHA1 => x01 | SHA256 => x20 end) :: msg);
  rsa_DecryptOAEP := fun hash rnd priv ciphertext label =>
    match hash, ciphertext with
    | SHA1, x01 :: msg => Ok msg
    | SHA256, x20 :: msg => Ok msg
    | _, _ => Err (ErrExternal "crypto/rsa: decryption error")
    end
|}.

(** An ECDH-ES key generator that hands out the key the recipient of
    [recipient_priv] derives for ECDH-ES+A128KW from the ephemeral key
    [(5, 10)]. *)
Definition test_kek : list byte :=
  bytes_of [15; 69; 67; 68; 72; 45; 69; 83; 43; 65; 49; 50; 56; 75; 87; 0].

Definition ephemeral_priv : ecdsa.PrivateKey test_curve :=
  {| ecdsa.Public := recipient_pub; ecdsa.D := 5 |}.

Definition test_encrypter : keyenc2.ECDHESEncrypt test_curve :=
  {| keyenc2.ECDHESEncrypt_algorithm := ECDH_ES_A128KW;
     keyenc2.ECDHESEncrypt_generator := fun _ =>
       Ok (ByteWithECPrivateKey test_kek ephemeral_priv);
     keyenc2.ECDHESEncrypt_keyID := "" |}.

End Examples2.

(** * Properties *)

(** ** Go values *)

Section go_facts.
Import Go.

Lemma byte_xor_cancel a b : byte_xor (byte_xor a b) b = a.
Proof.
  unfold byte_xor.
  rewrite <- (Byte.of_bits_to_bits a) at 2.
  destruct (Byte.to_bits a) as (a0 & a1 & a2 & a3 & a4 & a5 & a6 & a7).
  destruct (Byte.to_bits b) as (b0 & b1 & b2 & b3 & b4 & b5 & b6 & b7).
  rewrite Byte.to_bits_of_bits.
  by rewrite !xorb_assoc, !xorb_nilpotent, !xorb_false_r.
Qed.

Lemma byte_to_of_Z v : byte_to_Z (byte_of_Z v) = v mod 256.
Proof.
  unfold byte_to_Z, byte_of_Z.
  assert (Hr : 0 <= v mod 256 < 256) by (apply Z.mod_pos_bound; lia).
  destruct (Byte.of_N (Z.to_N (v mod 256))) as [b|] eqn:Hb.
  - apply Byte.to_of_N in Hb. rewrite Hb. lia.
  - apply Byte.of_N_None_iff in Hb. lia.
Qed.

Lemma length_copy {A} (dst src : list A) : length (copy dst src) = length dst.
Proof.
  unfold copy. rewrite length_app, length_take, length_drop. lia.
Qed.

Lemma copy_full {A} (dst src : list A) :
  length dst = length src -> copy dst src = src.
Proof.
  intros H. unfold copy. rewrite drop_ge by lia. rewrite H, firstn_all.
  apply app_nil_r.
Qed.

Lemma copy_prefix {A} (dst src : list A) :
  (length dst <= length src)%nat -> copy dst src = take (length dst) src.
Proof.
  intros H. unfold copy. rewrite drop_ge by done. apply app_nil_r.
Qed.

Lemma length_copy_at {A} (dst : list A) off src :
  length (copy_at dst off src) = length dst.
Proof.
  unfold copy_at. rewrite length_app, length_copy, length_take, length_drop.
  lia.
Qed.

Lemma length_make n : length (make n) = n.
Proof. apply length_replicate. Qed.

(** Value of little-endian digits. *)
Lemma SetBytes_rev l :
  SetBytes (rev l) = fold_right (fun b acc => acc * 256 + byte_to_Z b) 0 l.
Proof.
  unfold SetBytes. rewrite <- (rev_involutive l) at 2.
  symmetry. apply (fold_left_rev_right (fun b acc => acc * 256 + byte_to_Z b)).
Qed.

Lemma le_digits_value fuel x :
  0 <= x < 2 ^ Z.of_nat fuel -> SetBytes (rev (le_digits fuel x)) = x.
Proof.
  rewrite SetBytes_rev. revert x.
  induction fuel as [|fuel IH]; intros x Hx; simpl.
  - change (2 ^ Z.of_nat 0) with 1 in Hx. lia.
  - destruct (Z.eqb_spec x 0) as [->|Hne]; [done|]. simpl.
    rewrite IH, byte_to_of_Z.
    + Z.div_mod_to_equations; lia.
    + rewrite Nat2Z.inj_succ, Z.pow_succ_r in Hx by lia.
      Z.div_mod_to_equations; lia.
Qed.

Lemma SetBytes_Bytes x : 0 <= x -> SetBytes (Bytes x) = x.
Proof.
  intros Hx. unfold Bytes. rewrite Z.abs_eq by done.
  apply le_digits_value. split; [done|].
  rewrite Nat2Z.inj_succ, Z2Nat.id by apply Z.log2_nonneg.
  destruct (Z.eq_dec x 0) as [->|]; [done|].
  apply Z.log2_spec. lia.
Qed.

Lemma SetBytes_app l1 l2 :
  SetBytes (l1 ++ l2) =
  fold_left (fun acc b => acc * 256 + byte_to_Z b) l2 (SetBytes l1).
Proof. unfold SetBytes. apply fold_left_app. Qed.

Lemma SetBytes_zeros n : SetBytes (make n) = 0.
Proof.
  unfold SetBytes, make. induction n as [|n IH]; [done|].
  simpl. exact IH.
Qed.

Lemma SetBytes_pad n l : SetBytes (make n ++ l) = SetBytes l.
Proof. by rewrite SetBytes_app, SetBytes_zeros. Qed.

End go_facts.

(** ** The fixed-width coordinate codec *)

Section codec.
Import Go jwk.

Lemma curveSize_ceil params :
  0 <= BitSize params -> curveSize params = (BitSize params + 7) / 8.
Proof.
  intros Hb. unfold curveSize.
  rewrite Z.quot_div_nonneg, Z.rem_mod_nonneg by lia.
  destruct (Z.eqb_spec (BitSize params mod 8) 0);
    Z.div_mod_to_equations; lia.
Qed.

Lemma length_le_digits k fuel x :
  0 <= x < 256 ^ Z.of_nat k -> (length (le_digits fuel x) <= k)%nat.
Proof.
  revert fuel x. induction k as [|k IH]; intros fuel x Hx.
  - change (256 ^ Z.of_nat 0) with 1 in Hx.
    assert (x = 0) as -> by lia. destruct fuel; simpl; lia.
  - destruct fuel as [|fuel]; simpl; [lia|].
    destruct (Z.eqb_spec x 0); simpl; [lia|].
    apply le_n_S, IH.
    rewrite Nat2Z.inj_succ, Z.pow_succ_r in Hx by lia.
    Z.div_mod_to_equations; lia.
Qed.

(** A coordinate below [2^bitsize] has at most [⌈bitsize/8⌉] bytes. *)
Lemma length_Bytes_bound bitsize x :
  0 <= bitsize -> 0 <= x < 2 ^ bitsize ->
  Z.of_nat (length (Bytes x)) <= (bitsize + 7) / 8.
Proof.
  intros Hb Hx. unfold Bytes. rewrite length_rev, Z.abs_eq by lia.
  assert (Hk : 0 <= (bitsize + 7) / 8) by (Z.div_mod_to_equations; lia).
  pose proof (length_le_digits (Z.to_nat ((bitsize + 7) / 8))
    (S (Z.to_nat (Z.log2 x))) x) as Hlen.
  rewrite Z2Nat.id in Hlen by done.
  assert (2 ^ bitsize <= 256 ^ ((bitsize + 7) / 8)).
  { change 256 with (2 ^ 8). rewrite <- Z.pow_mul_r by lia.
    apply Z.pow_le_mono_r; [lia|]. Z.div_mod_to_equations; lia. }
  lia.
Qed.

(** C9. The fixed-width coordinate codec is a round trip: for a
    non-negative integer [x] whose big-endian bytes [x.Bytes()] number at
    most [⌈bitsize/8⌉], [newFixedSizeBuffer(x.Bytes(), curveSize(crv))]
    returns exactly [⌈bitsize/8⌉] bytes, namely zeros followed by
    [x.Bytes()], and [SetBytes] of that buffer is [x] again. *)
Theorem fixed_width_codec_roundtrip (params : CurveParams) (x : Z) :
  0 <= BitSize params ->
  0 <= x ->
  Z.of_nat (length (Bytes x)) <= (BitSize params + 7) / 8 ->
  exists buf,
    newFixedSizeBuffer (Bytes x) (curveSize params) = Ok buf /\
    Z.of_nat (length buf) = (BitSize params + 7) / 8 /\
    buf = replicate (length buf - length (Bytes x)) x00 ++ Bytes x /\
    SetBytes buf = x.
Proof.
  intros Hb Hx Hlen. unfold newFixedSizeBuffer.
  rewrite (curveSize_ceil _ Hb).
  destruct (Z.gtb_spec (Z.of_nat (length (Bytes x))) ((BitSize params + 7) / 8))
    as [Hgt|_]; [lia|].
  eexists. split; [reflexivity|].
  rewrite length_app, length_make.
  split; [lia|]. split.
  - unfold make. f_equal. f_equal. lia.
  - by rewrite SetBytes_pad, SetBytes_Bytes.
Qed.

Lemma fixed_width_codec_roundtrip_witness :
  exists buf,
    newFixedSizeBuffer (Bytes 258) (curveSize {| BitSize := 521; Name := "P-521" |})
      = Ok buf /\
    Z.of_nat (length buf) = 66 /\
    buf = replicate (length buf - 2) x00 ++ Bytes 258 /\
    SetBytes buf = 258.
Proof.
  apply (fixed_width_codec_roundtrip {| BitSize := 521; Name := "P-521" |} 258).
  - simpl. lia.
  - lia.
  - vm_compute. discriminate.
Defined.

End codec.

(** ** AES key wrap *)

Section keywrap.
Import Go keyenc.
Local Open Scope nat_scope.

Lemma length_tBytes v :
  length (copy (make keywrapChunkLen) (PutUint64 v)) = 8.
Proof. by rewrite length_copy, length_make. Qed.

Lemma zip_xor_cancel (a tB : list byte) :
  length a = length tB ->
  zip_with byte_xor (zip_with byte_xor a tB) tB = a.
Proof.
  revert tB. induction a as [|x a IH]; intros [|y tB] Hlen; try done.
  simpl in *. rewrite byte_xor_cancel, IH; [done|lia].
Qed.

Lemma take_xor_tBytes buffer tB :
  length tB = 8 -> 8 <= length buffer ->
  take 8 (xor_tBytes buffer tB) = zip_with byte_xor (take 8 buffer) tB.
Proof.
  intros HtB Hb. unfold xor_tBytes, keywrapChunkLen.
  apply take_app_length'.
  rewrite length_zip_with, length_take. lia.
Qed.

Lemma drop_xor_tBytes buffer tB :
  length tB = 8 -> 8 <= length buffer ->
  drop 8 (xor_tBytes buffer tB) = drop 8 buffer.
Proof.
  intros HtB Hb. unfold xor_tBytes, keywrapChunkLen.
  apply drop_app_length'.
  rewrite length_zip_with, length_take. lia.
Qed.

Lemma length_xor_tBytes buffer tB :
  length tB = 8 -> 8 <= length buffer ->
  length (xor_tBytes buffer tB) = length buffer.
Proof.
  intros HtB Hb. unfold xor_tBytes, keywrapChunkLen.
  rewrite length_app, length_zip_with, length_take, length_drop. lia.
Qed.

Lemma kw_wf_register n st i :
  kw_wf n st -> i < n -> length (kw_r st !!! i) = 8.
Proof.
  intros (_ & Hn & Hall) Hi.
  eapply (Forall_lookup_1 _ _ i _ Hall).
  apply list_lookup_lookup_total_lt. lia.
Qed.

Lemma wrap_step_wf kek n st t :
  kw_wf n st -> t mod n < n -> kw_wf n (wrap_step kek n st t).
Proof.
  intros Hwf Hi. pose proof (kw_wf_register _ _ _ Hwf Hi) as Hri.
  destruct Hwf as (Hb & Hn & Hall).
  assert (length (copy (copy_at (kw_buffer st) keywrapChunkLen
                                 (kw_r st !!! (t mod n)))
                       (Encrypt kek (copy_at (kw_buffer st) keywrapChunkLen
                                       (kw_r st !!! (t mod n))))) = 16) as Hlen
    by (by rewrite length_copy, length_copy_at).
  unfold wrap_step, kw_wf; simpl. split_and!.
  - rewrite length_xor_tBytes; [done|apply length_tBytes|lia].
  - by rewrite length_insert.
  - apply Forall_insert; [done|]. by rewrite length_copy.
Qed.

Lemma unwrap_step_wf block n st t :
  kw_wf n st -> t mod n < n -> kw_wf n (unwrap_step block n st t).
Proof.
  intros Hwf Hi. pose proof (kw_wf_register _ _ _ Hwf Hi) as Hri.
  destruct Hwf as (Hb & Hn & Hall).
  unfold unwrap_step, kw_wf; simpl. split_and!.
  - rewrite length_copy, length_copy_at, length_xor_tBytes;
      [done|apply length_tBytes|lia].
  - by rewrite length_insert.
  - apply Forall_insert; [done|]. by rewrite length_copy.
Qed.

Lemma copy_at_tail (dst src : list byte) :
  length dst = 16 -> length src = 8 ->
  copy_at dst keywrapChunkLen src = take 8 dst ++ src.
Proof.
  intros Hd Hs. unfold copy_at, keywrapChunkLen. f_equal.
  apply copy_full. rewrite length_drop. lia.
Qed.

(** One round of [Wrap], written on [A = buffer[:8]] and the registers. *)
Lemma wrap_step_rounds kek n st t :
  valid_block_cipher kek -> kw_wf n st -> t mod n < n ->
  let B := Encrypt kek (take 8 (kw_buffer st) ++ kw_r st !!! (t mod n)) in
  let tBytes := copy (make keywrapChunkLen) (PutUint64 (Z.of_nat t + 1)) in
  length B = 16 /\
  take 8 (kw_buffer (wrap_step kek n st t))
    = zip_with byte_xor (take 8 B) tBytes /\
  kw_r (wrap_step kek n st t) = <[t mod n := drop 8 B]> (kw_r st).
Proof.
  intros Hk Hwf Hi B tBytes.
  pose proof (kw_wf_register _ _ _ Hwf Hi) as Hri.
  destruct Hwf as (Hb & Hn & Hall).
  assert (length (take 8 (kw_buffer st) ++ kw_r st !!! (t mod n)) = 16) as Hsrc
    by (rewrite length_app, length_take; lia).
  destruct (Hk _ Hsrc) as [HB _]. fold B in HB.
  unfold wrap_step; simpl.
  rewrite (copy_at_tail _ _ Hb Hri).
  rewrite (copy_full _ (Encrypt kek _)) by (fold B; lia). fold B tBytes.
  split_and!; [done| |].
  - apply take_xor_tBytes; [apply length_tBytes|lia].
  - rewrite drop_xor_tBytes by (first [apply length_tBytes|lia]).
    f_equal. apply copy_full. rewrite length_drop. lia.
Qed.

(** One round of [Unwrap] undoes the round of [Wrap] with the same [t]. *)
Lemma unwrap_step_wrap_step k n st st2 t :
  valid_block_cipher k -> kw_wf n st -> kw_wf n st2 -> t mod n < n ->
  kw_same st2 (wrap_step k n st t) ->
  kw_same (unwrap_step k n st2 t) st.
Proof.
  intros Hk Hwf Hwf2 Hi [HA HR].
  destruct (wrap_step_rounds k n st t Hk Hwf Hi) as (HB & HA' & HR').
  set (B := Encrypt k (take 8 (kw_buffer st) ++ kw_r st !!! (t mod n))) in *.
  set (tBytes := copy (make keywrapChunkLen) (PutUint64 (Z.of_nat t + 1))) in *.
  pose proof (kw_wf_register _ _ _ Hwf Hi) as Hri.
  assert (length tBytes = 8) as HtB by apply length_tBytes.
  destruct Hwf as (Hb & Hn & Hall). destruct Hwf2 as (Hb2 & Hn2 & Hall2).
  assert (length (take 8 (kw_buffer st) ++ kw_r st !!! (t mod n)) = 16) as Hsrc
    by (rewrite length_app, length_take; lia).
  destruct (Hk _ Hsrc) as [_ HD]. fold B in HD.
  rewrite HA' in HA. rewrite HR' in HR.
  assert (kw_r st2 !!! (t mod n) = drop 8 B) as Hr2.
  { rewrite HR. apply list_lookup_total_insert_eq. lia. }
  assert (length (xor_tBytes (kw_buffer st2) tBytes) = 16) as Hx
    by (rewrite length_xor_tBytes; lia).
  assert (copy_at (xor_tBytes (kw_buffer st2) tBytes) keywrapChunkLen
            (kw_r st2 !!! (t mod n)) = B) as Hsrc2.
  { rewrite copy_at_tail; [|done|rewrite Hr2, length_drop; lia].
    rewrite take_xor_tBytes, HA, zip_xor_cancel, Hr2 by (rewrite ?length_take; lia).
    apply take_drop. }
  unfold kw_same, unwrap_step; simpl. fold tBytes.
  rewrite Hsrc2, HD, (copy_full B) by (by rewrite Hsrc).
  split.
  - rewrite take_app_length'; [done|]. rewrite length_take. lia.
  - unfold keywrapChunkLen.
    rewrite drop_app_length' by (rewrite length_take; lia).
    rewrite (copy_full _ (kw_r st !!! (t mod n)))
      by (rewrite Hr2, length_drop; lia).
    rewrite HR, list_insert_insert_eq.
    apply list_insert_id, list_lookup_lookup_total_lt. lia.
Qed.

(** The loop of [Unwrap] undoes the loop of [Wrap], counter by counter. *)
Lemma unwrap_loop_wrap_loop k n ts :
  valid_block_cipher k -> (ts = [] \/ 0 < n) ->
  forall st st2,
    kw_wf n st -> kw_wf n st2 ->
    kw_same st2 (fold_left (wrap_step k n) ts st) ->
    kw_wf n (fold_left (unwrap_step k n) (rev ts) st2) /\
    kw_same (fold_left (unwrap_step k n) (rev ts) st2) st.
Proof.
  intros Hk Hn. induction ts as [|t ts IH]; intros st st2 Hwf Hwf2 Hsame.
  - done.
  - destruct Hn as [|Hn]; [done|].
    assert (t mod n < n) as Hi by (apply Nat.mod_upper_bound; lia).
    simpl in *. rewrite fold_left_app. simpl.
    destruct (IH (or_intror Hn) (wrap_step k n st t) st2) as [Hwf3 Hsame3];
      [by apply wrap_step_wf|done|done|].
    split; [by apply unwrap_step_wf|].
    by apply unwrap_step_wrap_step.
Qed.

Lemma wrap_loop_wf kek n ts st :
  (ts = [] \/ 0 < n) -> kw_wf n st ->
  kw_wf n (fold_left (wrap_step kek n) ts st).
Proof.
  intros Hn. revert st. induction ts as [|t ts IH]; intros st Hwf; [done|].
  destruct Hn as [|Hn]; [done|]. simpl.
  apply IH; [by right|]. apply wrap_step_wf; [done|].
  apply Nat.mod_upper_bound. lia.
Qed.

(** *** Cutting a slice into 8-byte registers and joining them again *)

Lemma length_concat_blocks (R : list (list byte)) :
  Forall (fun b => length b = 8) R -> length (concat R) = 8 * length R.
Proof.
  induction 1 as [|b R Hb _ IH]; [done|].
  simpl. rewrite length_app. lia.
Qed.

(** The loop [for i := range r { copy(out[off+i*8:], r[i]) }]. *)
Lemma fill_blocks_upto (f : list byte -> nat -> list byte) R pre tail :
  Forall (fun b => length b = 8) R ->
  length tail = 8 * length R ->
  (forall out i, f out i = copy_at out (length pre + i * 8) (R !!! i)) ->
  forall m, m <= length R ->
    fold_left f (seq 0 m) (pre ++ tail)
    = pre ++ concat (take m R) ++ drop (8 * m) tail.
Proof.
  intros HR Htail Hf. induction m as [|m IH]; intros Hm.
  - done.
  - rewrite seq_S, fold_left_app, IH by lia. simpl.
    assert (is_Some (R !! m)) as [x Hx] by (apply lookup_lt_is_Some; lia).
    assert (length x = 8) as Hlx by (by eapply (Forall_lookup_1 _ _ m x HR)).
    assert (length (concat (take m R)) = 8 * m) as Hc.
    { rewrite length_concat_blocks by (by apply Forall_take).
      rewrite length_take. lia. }
    rewrite Hf, (list_lookup_total_correct _ _ _ Hx).
    unfold copy_at.
    rewrite (app_assoc pre).
    rewrite take_app_length', drop_app_length'
      by (rewrite length_app; lia).
    rewrite (take_S_r _ _ _ Hx), concat_app. simpl.
    rewrite app_nil_r, <- !app_assoc. do 2 f_equal.
    unfold copy.
    rewrite take_ge by (rewrite length_drop; lia).
    rewrite drop_drop, Hlx. do 2 f_equal. lia.
Qed.

Lemma fill_blocks (f : list byte -> nat -> list byte) R pre :
  Forall (fun b => length b = 8) R ->
  (forall out i, f out i = copy_at out (length pre + i * 8) (R !!! i)) ->
  fold_left f (seq 0 (length R)) (pre ++ make (8 * length R))
  = pre ++ concat R.
Proof.
  intros HR Hf.
  rewrite (fill_blocks_upto f R pre _ HR) by (first [apply length_make|done]).
  rewrite firstn_all, drop_ge by (rewrite length_make; lia).
  by rewrite app_nil_r.
Qed.

Lemma block_of_concat (R : list (list byte)) i :
  Forall (fun b => length b = 8) R -> i < length R ->
  take 8 (drop (i * 8) (concat R)) = R !!! i.
Proof.
  intros HR. revert i. induction HR as [|b R Hb HR IH]; intros i Hi.
  - simpl in Hi. lia.
  - change (concat (b :: R)) with (b ++ concat R). destruct i as [|i].
    + simpl. by apply take_app_length'.
    + replace (S i * 8) with (length b + i * 8) by lia.
      rewrite drop_app_add. simpl in Hi. rewrite IH by lia. done.
Qed.

Lemma map_lookup_total_seq (R : list (list byte)) :
  map (fun i => R !!! i) (seq 0 (length R)) = R.
Proof.
  apply list_eq. intros i. rewrite list_lookup_fmap.
  destruct (decide (i < length R)) as [Hi|Hi].
  - rewrite lookup_seq_lt by done. simpl.
    by rewrite (list_lookup_lookup_total_lt R i).
  - rewrite lookup_seq_ge, lookup_ge_None_2 by lia. done.
Qed.

Lemma concat_blocks_upto (cek : list byte) m :
  concat (map (fun i => take 8 (drop (i * 8) cek)) (seq 0 m))
  = take (m * 8) cek.
Proof.
  induction m as [|m IH]; [done|].
  rewrite seq_S, map_app, concat_app, IH. simpl.
  rewrite app_nil_r, take_take_drop. f_equal. lia.
Qed.

(** *** The two functions around their loops *)

Lemma wrap_init_spec cek n :
  length cek = 8 * n ->
  kw_wf n (wrap_init cek) /\
  take 8 (kw_buffer (wrap_init cek)) = keywrapDefaultIV /\
  concat (kw_r (wrap_init cek)) = cek.
Proof.
  intros Hlen. unfold wrap_init, keywrapChunkLen.
  replace (length cek / 8) with n by (rewrite Hlen, Nat.mul_comm, Nat.div_mul; lia).
  simpl kw_buffer; simpl kw_r. split_and!.
  - split_and!; simpl.
    + done.
    + by rewrite length_map, length_seq.
    + apply List.Forall_forall. intros b (i & <- & _)%in_map_iff.
      by rewrite length_copy.
  - done.
  - rewrite (map_ext_in _ (fun i => take 8 (drop (i * 8) cek))).
    + rewrite concat_blocks_upto. apply take_ge. lia.
    + intros i Hi%in_seq. apply copy_prefix.
      rewrite length_make, length_drop. lia.
Qed.

Lemma wrap_loop_wf' kek cek n :
  length cek = 8 * n -> kw_wf n (wrap_loop kek cek).
Proof.
  intros Hlen. destruct (wrap_init_spec cek n Hlen) as (Hwf & _).
  unfold wrap_loop, keywrapChunkLen.
  replace (length cek / 8) with n by (rewrite Hlen, Nat.mul_comm, Nat.div_mul; lia).
  apply wrap_loop_wf; [|done].
  destruct n; [by left|right; lia].
Qed.

(** What [Wrap] returns on a whole number of 8-byte blocks. *)
Lemma Wrap_blocks kek cek n :
  length cek = 8 * n ->
  Wrap kek cek =
    (kw_calls (wrap_loop kek cek),
     Ok (take 8 (kw_buffer (wrap_loop kek cek))
           ++ concat (kw_r (wrap_loop kek cek)))).
Proof.
  intros Hlen. pose proof (wrap_loop_wf' kek cek n Hlen) as (Hb & Hn & HR).
  unfold Wrap, keywrapChunkLen.
  replace (length cek mod 8) with 0
    by (rewrite Hlen, Nat.mul_comm, Nat.Div0.mod_mul; lia).
  replace (length cek / 8) with n by (rewrite Hlen, Nat.mul_comm, Nat.div_mul; lia).
  simpl negb. cbv iota. do 2 f_equal.
  replace (make ((n + 1) * 8)) with (make 8 ++ make (8 * length (kw_r (wrap_loop kek cek)))).
  2:{ unfold make. rewrite <- replicate_add. f_equal. lia. }
  unfold copy at 1.
  rewrite !length_app, !length_make, length_take.
  rewrite take_ge by (rewrite length_take; lia).
  rewrite drop_app_length' by (rewrite length_make; lia).
  apply fill_blocks; [done|].
  intros out i. rewrite length_take. do 2 f_equal. lia.
Qed.

Lemma unwrap_init_spec (A : list byte) (R : list (list byte)) :
  length A = 8 -> Forall (fun b => length b = 8) R ->
  kw_wf (length R) (unwrap_init (A ++ concat R) (length R)) /\
  take 8 (kw_buffer (unwrap_init (A ++ concat R) (length R))) = A /\
  kw_r (unwrap_init (A ++ concat R) (length R)) = R.
Proof.
  intros HA HR. pose proof (length_concat_blocks R HR) as Hc.
  assert (kw_r (unwrap_init (A ++ concat R) (length R)) = R) as Hr.
  { unfold unwrap_init, keywrapChunkLen. simpl kw_r.
    etrans; [|apply map_lookup_total_seq].
    apply map_ext_in. intros i Hi%in_seq.
    replace ((i + 1) * 8) with (length A + i * 8) by lia.
    rewrite drop_app_add, copy_prefix
      by (rewrite length_make, length_drop; lia).
    rewrite length_make. apply block_of_concat; [done|lia]. }
  assert (kw_buffer (unwrap_init (A ++ concat R) (length R))
          = A ++ make 8) as Hbuf.
  { unfold unwrap_init, keywrapChunkLen. simpl kw_buffer.
    rewrite (take_app_length' A) by done.
    f_equal. apply copy_full. by rewrite HA. }
  split_and!.
  - split_and!.
    + rewrite Hbuf, length_app, length_make. lia.
    + by rewrite Hr.
    + by rewrite Hr.
  - rewrite Hbuf. by apply take_app_length'.
  - done.
Qed.

Lemma reversal_cipher_valid : valid_block_cipher Examples.reversal_cipher.
Proof.
  intros b Hb. simpl. split; [by rewrite length_rev|apply rev_involutive].
Qed.

(** C1. For every block cipher [k] (a KEK) and every CEK [m] whose length
    is a positive multiple of 8 bytes, [Wrap(k, m)] succeeds with some [c]
    and [Unwrap(k, c)] succeeds and returns exactly [m].  (The proof does
    not use that the multiple is positive.) *)
Theorem Unwrap_Wrap_roundtrip (k : Block) (m : list byte) (n : nat) :
  valid_block_cipher k ->
  0 < n ->
  length m = 8 * n ->
  exists c, (Wrap k m).2 = Ok c /\ (Unwrap k c).2 = Ok m.
Proof.
  intros Hk _ Hlen.
  rewrite (Wrap_blocks k m n Hlen). eexists. split; [reflexivity|].
  destruct (wrap_init_spec m n Hlen) as (Hwf0 & HIV & Hm).
  pose proof (wrap_loop_wf' k m n Hlen) as Hwf.
  set (stw := wrap_loop k m) in *.
  destruct Hwf as (Hb & Hn & HR).
  set (A := take 8 (kw_buffer stw)). set (R := kw_r stw) in *.
  assert (length A = 8) as HA by (unfold A; rewrite length_take; lia).
  destruct (unwrap_init_spec A R HA HR) as (Hwfu & HAu & HRu).
  rewrite Hn in Hwfu, HAu, HRu.
  assert (length m / 8 = n) as Hdiv
    by (rewrite Hlen, Nat.mul_comm, Nat.div_mul; lia).
  destruct (unwrap_loop_wrap_loop k n (seq 0 (6 * n)) Hk
              (match n with
               | 0 => or_introl eq_refl
               | S p => or_intror (Nat.lt_0_succ p)
               end)
              (wrap_init m) (unwrap_init (A ++ concat R) n) Hwf0 Hwfu)
    as ((_ & Hnu & HRl) & (HAl & Hrl)).
  { replace (fold_left (wrap_step k n) (seq 0 (6 * n)) (wrap_init m))
      with stw
      by (unfold stw, wrap_loop, keywrapChunkLen; by rewrite Hdiv).
    by split. }
  assert (length (A ++ concat R) = 8 * (n + 1)) as Hc.
  { rewrite length_app, length_concat_blocks by done. lia. }
  unfold Unwrap, keywrapChunkLen.
  replace (length (A ++ concat R) mod 8) with 0
    by (rewrite Hc, Nat.mul_comm, Nat.Div0.mod_mul; lia).
  replace (Z.of_nat (length (A ++ concat R)) / Z.of_nat 8 - 1)%Z
    with (Z.of_nat n) by (rewrite Hc; Z.div_mod_to_equations; lia).
  simpl negb. cbv iota.
  destruct (Z.ltb_spec (Z.of_nat n) 0) as [?|_]; [lia|].
  rewrite Nat2Z.id. unfold unwrap_loop.
  set (stu := fold_left (unwrap_step k n) (rev (seq 0 (6 * n)))
                (unwrap_init (A ++ concat R) n)) in *.
  rewrite HAl, HIV.
  unfold ConstantTimeCompare. rewrite bool_decide_eq_true_2 by done.
  simpl negb. cbv iota. simpl snd. f_equal.
  rewrite Hrl. destruct Hwf0 as (_ & Hn0 & HR0).
  rewrite <- Hm at 2.
  change (make (n * 8)) with ([] ++ make (n * 8)).
  rewrite <- Hn0 at 1. rewrite (Nat.mul_comm _ 8).
  apply (fill_blocks _ (kw_r (wrap_init m)) []); [done|].
  intros out i. done.
Qed.

Lemma Unwrap_Wrap_roundtrip_witness :
  exists c,
    (Wrap Examples.reversal_cipher
          (Examples.bytes_of [0; 17; 34; 51; 68; 85; 102; 119;
                              136; 153; 170; 187; 204; 221; 238; 255]%Z)).2
      = Ok c /\
    (Unwrap Examples.reversal_cipher c).2
      = Ok (Examples.bytes_of [0; 17; 34; 51; 68; 85; 102; 119;
                               136; 153; 170; 187; 204; 221; 238; 255]%Z).
Proof.
  apply (Unwrap_Wrap_roundtrip Examples.reversal_cipher _ 2).
  - exact reversal_cipher_valid.
  - lia.
  - reflexivity.
Defined.

(** C3, as the code has it.  [Unwrap(k, c)] fails with the error
    "keyunwrap input must be 8 byte blocks" (the spec's InputShapeError)
    whenever [len(c)] is not a multiple of 8, and then no cipher operation
    and no integrity check has been made.  The code has no lower bound of 24
    on [len(c)]. *)
Theorem Unwrap_rejects_partial_blocks (block : Block) (c : list byte) :
  length c mod 8 <> 0 ->
  Unwrap block c = ([], Err ErrKeyunwrapInput).
Proof.
  intros Hmod. unfold Unwrap, keywrapChunkLen.
  by destruct (Nat.eqb_spec (length c mod 8) 0).
Qed.

Lemma Unwrap_rejects_partial_blocks_witness :
  Unwrap Examples.reversal_cipher (Examples.bytes_of [1; 2; 3]%Z)
  = ([], Err ErrKeyunwrapInput).
Proof.
  apply (Unwrap_rejects_partial_blocks Examples.reversal_cipher).
  simpl. lia.
Defined.

(** C3 fails as stated: a 16-byte input, shorter than 24, is unwrapped with
    six [Decrypt] calls and the integrity check, and here it succeeds. *)
Lemma Unwrap_16_bytes_counterexample :
  let c := Examples.bytes_of
             [166; 166; 166; 166; 166; 166; 166; 166; 6; 2; 3; 4; 5; 6; 7; 8]%Z in
  length c = 16 /\
  (Unwrap Examples.reversal_cipher c).2
    = Ok (Examples.bytes_of [1; 2; 3; 4; 5; 6; 7; 8]%Z) /\
  length (Unwrap Examples.reversal_cipher c).1 = 7 /\
  Unwrap Examples.reversal_cipher c <> ([], Err ErrKeyunwrapInput).
Proof. vm_compute. split_and!; done. Qed.

(** The other short inputs: 8 bytes go straight to the integrity check, and
    an empty input makes [make([][]byte, -1)] panic. *)
Lemma Unwrap_8_bytes (block : Block) :
  Unwrap block keywrapDefaultIV
  = ([EvConstantTimeCompare keywrapDefaultIV keywrapDefaultIV], Ok []).
Proof. reflexivity. Qed.

Lemma Unwrap_empty (block : Block) :
  Unwrap block [] = ([], Panic "makeslice: len out of range").
Proof. reflexivity. Qed.

(** C4, as the code has it.  [Wrap(k, cek)] fails, with the error "keywrap
    input must be 8 byte blocks", exactly when [len(cek)] is not a multiple
    of 8.  When [len(cek) = 8n], for any [n] including 0, it succeeds and
    returns [(n+1)*8] bytes: the 8 bytes of [buffer[:8]] left by the loop
    (the transformed IV) followed by the [n] registers left by the loop (the
    transformed key blocks). *)
Theorem Wrap_result (kek : Block) (cek : list byte) :
  (length cek mod 8 <> 0 -> Wrap kek cek = ([], Err ErrKeywrapInput)) /\
  (forall n, length cek = 8 * n ->
     let A := take 8 (kw_buffer (wrap_loop kek cek)) in
     let R := kw_r (wrap_loop kek cek) in
     (Wrap kek cek).2 = Ok (A ++ concat R) /\
     length A = 8 /\ length R = n /\
     Forall (fun b => length b = 8) R /\
     length (A ++ concat R) = (n + 1) * 8).
Proof.
  split.
  - intros Hmod. unfold Wrap.
    by destruct (Nat.eqb_spec (length cek mod 8) 0).
  - intros n Hlen A R.
    pose proof (wrap_loop_wf' kek cek n Hlen) as (Hb & Hn & HR).
    rewrite (Wrap_blocks kek cek n Hlen).
    assert (length A = 8) as HA by (unfold A; rewrite length_take; lia).
    split_and!; try done.
    rewrite length_app, length_concat_blocks by done. fold R in Hn. lia.
Qed.

Lemma Wrap_result_witness :
  (Wrap Examples.reversal_cipher (Examples.bytes_of [1; 2; 3; 4; 5; 6; 7; 8]%Z)).2
  = Ok (Examples.bytes_of
          [166; 166; 166; 166; 166; 166; 166; 166; 6; 2; 3; 4; 5; 6; 7; 8]%Z)
  /\ Wrap Examples.reversal_cipher (Examples.bytes_of [1; 2; 3]%Z)
     = ([], Err ErrKeywrapInput).
Proof.
  destruct (Wrap_result Examples.reversal_cipher
              (Examples.bytes_of [1; 2; 3; 4; 5; 6; 7; 8]%Z)) as [_ Hok].
  destruct (Wrap_result Examples.reversal_cipher
              (Examples.bytes_of [1; 2; 3]%Z)) as [Herr _].
  split.
  - destruct (Hok 1 eq_refl) as [Hout _]. exact Hout.
  - apply Herr. simpl. lia.
Defined.

(** C4 fails as stated: the empty CEK is not a positive multiple of 8 bytes
    long, and [Wrap] succeeds on it, returning the default IV. *)
Lemma Wrap_empty_cek_counterexample :
  ~ (exists n, 1 <= n /\ length (@nil byte) = 8 * n) /\
  Wrap Examples.reversal_cipher [] = ([], Ok keywrapDefaultIV).
Proof.
  split; [|reflexivity]. intros (n & Hn & Hlen). simpl in Hlen. lia.
Qed.

End keywrap.

(** ** RSA PKCS#1 v1.5 key decryption *)

Section rsa_pkcs15.
Import Go keyenc.
Context {C : Type} {collab : Collaborators C}.

Lemma int64_double keysize :
  0 <= keysize < 2 ^ 63 ->
  0 <= int64 (keysize * 2) -> int64 (keysize * 2) = 2 * keysize.
Proof.
  unfold int64. intros Hk Hpos.
  destruct (Z_lt_dec keysize (2 ^ 62)) as [Hlt|Hge].
  - rewrite Z.mod_small by lia. lia.
  - assert (keysize * 2 + 2 ^ 63 = (keysize * 2 - 2 ^ 63) + 1 * 2 ^ 64)
      as Heq by lia.
    rewrite Heq, Z.mod_add, Z.mod_small in Hpos by lia. lia.
Qed.

(** C10. When [RSAPKCS15Decrypt.Decrypt] returns a buffer and a nil error,
    the buffer has [2*keysize] bytes, the length of the fallback buffer that
    [NewRSAPKCS15Decrypt] sized at construction, and not [keysize]: it is
    the generated fallback with whatever the RSA primitive wrote over it,
    so the length is the same when the primitive wrote the decrypted key and
    when it left the fallback as it was. *)
Theorem RSAPKCS15Decrypt_returns_double_keysize
    (alg : KeyEncryptionAlgorithm) (privkey : rsa.PrivateKey) (keysize : Z)
    (rnd enckey buf : list byte) :
  0 <= keysize < 2 ^ 63 ->
  (RSAPKCS15Decrypt_Decrypt (NewRSAPKCS15Decrypt alg privkey keysize)
                            rnd enckey).2 = (Some buf, None) ->
  Z.of_nat (length buf) = 2 * keysize /\
  exists written,
    rsa_DecryptPKCS1v15SessionKey privkey enckey
      (take (Z.to_nat (2 * keysize)) rnd) = rsa.SKReturn written None /\
    buf = copy (take (Z.to_nat (2 * keysize)) rnd) written.
Proof.
  intros Hk. unfold RSAPKCS15Decrypt_Decrypt, RSAPKCS15Decrypt_Decrypt_body.
  unfold NewRSAPKCS15Decrypt, keygen.Generate, keygen.NewRandom. simpl.
  destruct (negb _); [done|].
  destruct (Z.ltb_spec (int64 (keysize * 2)) 0) as [?|Hpos]; [done|].
  rewrite (int64_double keysize Hk Hpos).
  destruct (Z.ltb_spec (Z.of_nat (length rnd)) (2 * keysize)) as [?|Hrnd];
    [done|].
  destruct (rsa_DecryptPKCS1v15SessionKey _ _ _) as [written [err|]|msg] eqn:Hp;
    simpl; try done.
  intros [= <-]. split; [|by exists written].
  rewrite length_copy, length_take. lia.
Qed.

(** C2, where the code departs from it.  When the RSA primitive returns an
    error for a ciphertext of the expected length, [Decrypt] returns that
    error, wrapped as "failed to decrypt via PKCS1v15", and no buffer: the
    fallback is not returned.  The comment above the call says the errors
    are deliberately ignored. *)
Theorem RSAPKCS15Decrypt_returns_primitive_error
    (d : RSAPKCS15Decrypt) (rnd enckey cek written : list byte) (err : error) :
  Z.quot (BitLen (rsa.N (rsa.Public (RSAPKCS15Decrypt_privkey d)))) 8
    = Z.of_nat (length enckey) ->
  keygen.Generate (RSAPKCS15Decrypt_generator d) rnd = Ok cek ->
  rsa_DecryptPKCS1v15SessionKey (RSAPKCS15Decrypt_privkey d) enckey cek
    = rsa.SKReturn written (Some err) ->
  RSAPKCS15Decrypt_Decrypt d rnd enckey
  = ([EvGenerate; EvRSADecrypt enckey],
     (None, Some (ErrWrap err "failed to decrypt via PKCS1v15"))).
Proof.
  intros Hlen Hgen Hprim.
  unfold RSAPKCS15Decrypt_Decrypt, RSAPKCS15Decrypt_Decrypt_body.
  rewrite Hlen, Z.eqb_refl, Hgen, Hprim. reflexivity.
Qed.

(** A panic of the primitive is recovered: [Decrypt] then returns a nil
    slice and a nil error, again not the fallback. *)
Lemma RSAPKCS15Decrypt_recovers_panic
    (d : RSAPKCS15Decrypt) (rnd enckey cek : list byte) (msg : string) :
  Z.quot (BitLen (rsa.N (rsa.Public (RSAPKCS15Decrypt_privkey d)))) 8
    = Z.of_nat (length enckey) ->
  keygen.Generate (RSAPKCS15Decrypt_generator d) rnd = Ok cek ->
  rsa_DecryptPKCS1v15SessionKey (RSAPKCS15Decrypt_privkey d) enckey cek
    = rsa.SKPanic msg ->
  RSAPKCS15Decrypt_Decrypt d rnd enckey
  = ([EvGenerate; EvRSADecrypt enckey], (None, None)).
Proof.
  intros Hlen Hgen Hprim.
  unfold RSAPKCS15Decrypt_Decrypt, RSAPKCS15Decrypt_Decrypt_body.
  rewrite Hlen, Z.eqb_refl, Hgen, Hprim. reflexivity.
Qed.

(** When the primitive reports nothing and leaves [key] as it was (bad
    padding), the fallback is what [Decrypt] returns. *)
Lemma RSAPKCS15Decrypt_returns_fallback
    (d : RSAPKCS15Decrypt) (rnd enckey cek : list byte) :
  Z.quot (BitLen (rsa.N (rsa.Public (RSAPKCS15Decrypt_privkey d)))) 8
    = Z.of_nat (length enckey) ->
  keygen.Generate (RSAPKCS15Decrypt_generator d) rnd = Ok cek ->
  rsa_DecryptPKCS1v15SessionKey (RSAPKCS15Decrypt_privkey d) enckey cek
    = rsa.SKReturn cek None ->
  RSAPKCS15Decrypt_Decrypt d rnd enckey
  = ([EvGenerate; EvRSADecrypt enckey], (Some cek, None)).
Proof.
  intros Hlen Hgen Hprim.
  unfold RSAPKCS15Decrypt_Decrypt, RSAPKCS15Decrypt_Decrypt_body.
  rewrite Hlen, Z.eqb_refl, Hgen, Hprim. simpl.
  by rewrite copy_full.
Qed.

(** The length check comes first: an input whose length is not
    [N.BitLen() / 8] is rejected before the generator and the RSA primitive
    are called. *)
Lemma RSAPKCS15Decrypt_rejects_other_lengths
    (d : RSAPKCS15Decrypt) (rnd enckey : list byte) :
  let expectedlen :=
    Z.quot (BitLen (rsa.N (rsa.Public (RSAPKCS15Decrypt_privkey d)))) 8 in
  expectedlen <> Z.of_nat (length enckey) ->
  RSAPKCS15Decrypt_Decrypt d rnd enckey
  = ([], (None, Some (ErrInputSize expectedlen (Z.of_nat (length enckey))))).
Proof.
  intros expectedlen Hlen.
  unfold RSAPKCS15Decrypt_Decrypt, RSAPKCS15Decrypt_Decrypt_body.
  fold expectedlen.
  by destruct (Z.eqb_spec expectedlen (Z.of_nat (length enckey))).
Qed.

(** C6, where the code departs from it.  The expected length is
    [N.BitLen() / 8], rounded down.  For a modulus of 2047 bits, whose
    ciphertexts have [⌈2047/8⌉ = 256] bytes, a 255-byte input passes the
    check and reaches the RSA primitive, and a 256-byte input is rejected. *)
Theorem RSAPKCS15Decrypt_expected_length_rounds_down :
  let d := NewRSAPKCS15Decrypt RSA1_5 Examples.key2047 16 in
  let rnd := replicate 32 x2a in
  BitLen (rsa.N (rsa.Public Examples.key2047)) = 2047 /\
  (2047 + 7) / 8 = 256 /\
  (RSAPKCS15Decrypt_Decrypt d rnd (replicate 255 x01)).1
    = [EvGenerate; EvRSADecrypt (replicate 255 x01)] /\
  RSAPKCS15Decrypt_Decrypt d rnd (replicate 256 x01)
    = ([], (None, Some (ErrInputSize 255 256))).
Proof.
  split_and!; try reflexivity.
  unfold RSAPKCS15Decrypt_Decrypt, RSAPKCS15Decrypt_Decrypt_body.
  change (negb _) with false. cbv iota.
  change (keygen.Generate _ _) with (Ok (replicate 32 x2a)). cbv iota.
  by destruct (rsa_DecryptPKCS1v15SessionKey _ _ _) as [written [err|]|msg].
Qed.

End rsa_pkcs15.

Section rsa_pkcs15_instances.
Import Go keyenc.

Lemma RSAPKCS15Decrypt_returns_double_keysize_witness :
  Z.of_nat (length (replicate 32 x2a)) = 2 * 16 /\
  exists written,
    rsa_DecryptPKCS1v15SessionKey (Collaborators := Examples.test_collaborators)
      Examples.key2048 (replicate 256 x01)
      (take (Z.to_nat (2 * 16)) (replicate 40 x2a)) = rsa.SKReturn written None /\
    replicate 32 x2a = copy (take (Z.to_nat (2 * 16)) (replicate 40 x2a)) written.
Proof.
  apply (RSAPKCS15Decrypt_returns_double_keysize
           (collab := Examples.test_collaborators)
           RSA1_5 Examples.key2048 16 (replicate 40 x2a) (replicate 256 x01)).
  - lia.
  - vm_compute. reflexivity.
Defined.

Lemma RSAPKCS15Decrypt_returns_primitive_error_witness :
  RSAPKCS15Decrypt_Decrypt (collab := Examples.test_collaborators)
    (NewRSAPKCS15Decrypt RSA1_5 Examples.key2048 16)
    (replicate 32 x2a) (replicate 256 xff)
  = ([EvGenerate; EvRSADecrypt (replicate 256 xff)],
     (None, Some (ErrWrap (ErrExternal "crypto/rsa: decryption error")
                          "failed to decrypt via PKCS1v15"))).
Proof.
  apply (RSAPKCS15Decrypt_returns_primitive_error
           (collab := Examples.test_collaborators)
           (NewRSAPKCS15Decrypt RSA1_5 Examples.key2048 16)
           (replicate 32 x2a) (replicate 256 xff)
           (replicate 32 x2a) (replicate 32 x2a)).
  - vm_compute. reflexivity.
  - vm_compute. reflexivity.
  - vm_compute. reflexivity.
Defined.

End rsa_pkcs15_instances.

(** ** Construction of the facades *)

Section constructors.
Import keyenc.
Context {C : Type}.

(** C8, as the code has it.  The RSA-OAEP encrypter and decrypter and the
    RSA-PKCS encrypter are constructed only for the identifiers they
    support (RSA_OAEP and RSA_OAEP_256, respectively RSA1_5) and return an
    error, "invalid RSA ... algorithm", for every other identifier.
    [NewAESCGM] makes no such check: it returns an object carrying the
    identifier it was given, whatever it is.  The constructors of the
    ECDH-ES, ECMR and RSA PKCS#1 v1.5 decrypters have no error result and
    keep any identifier. *)
Theorem constructors_check_algorithm (alg : KeyEncryptionAlgorithm) :
  (forall pubkey,
     NewRSAOAEPEncrypt alg pubkey =
       if bool_decide (alg = RSA_OAEP \/ alg = RSA_OAEP_256)
       then Ok {| RSAOAEPEncrypt_alg := alg; RSAOAEPEncrypt_pubkey := pubkey;
                  RSAOAEPEncrypt_keyID := "" |}
       else Err (ErrInvalidRSAOAEPEncryptAlg alg)) /\
  (forall privkey,
     NewRSAOAEPDecrypt alg privkey =
       if bool_decide (alg = RSA_OAEP \/ alg = RSA_OAEP_256)
       then Ok {| RSAOAEPDecrypt_alg := alg;
                  RSAOAEPDecrypt_privkey := privkey |}
       else Err (ErrInvalidRSAOAEPDecryptAlg alg)) /\
  (forall pubkey,
     NewRSAPKCSEncrypt alg pubkey =
       if bool_decide (alg = RSA1_5)
       then Ok {| RSAPKCSEncrypt_alg := alg; RSAPKCSEncrypt_pubkey := pubkey;
                  RSAPKCSEncrypt_keyID := "" |}
       else Err (ErrInvalidRSAPKCSEncryptAlg alg)) /\
  (forall sharedkey,
     NewAESCGM alg sharedkey =
       Ok {| AESCGM_alg := alg; AESCGM_sharedkey := sharedkey;
             AESCGM_keyID := "" |}) /\
  (forall contentalg (pubkey : ecdsa.PublicKey C) apu apv privkey,
     ECDHESDecrypt_keyalg
       (NewECDHESDecrypt alg contentalg pubkey apu apv privkey) = alg) /\
  (forall contentalg (pubkey : ecdsa.PublicKey C) apu apv exchFn,
     ECMRDecrypt_keyalg
       (NewECMRDecrypt alg contentalg pubkey apu apv exchFn) = alg) /\
  (forall privkey keysize,
     RSAPKCS15Decrypt_alg (NewRSAPKCS15Decrypt alg privkey keysize) = alg).
Proof.
  split_and!; intros; try reflexivity;
    destruct alg; simpl; try reflexivity.
Qed.

End constructors.

Section constructors_instances.
Import keyenc Examples.

(** C8 fails as stated: the AES key-wrap facade is constructed for an RSA
    identifier and for an identifier outside the enumeration, and so is the
    ECDH-ES decrypter, whose constructor cannot report an error. *)
Lemma NewAESCGM_any_algorithm_counterexample :
  NewAESCGM RSA1_5 [] =
    Ok {| AESCGM_alg := RSA1_5; AESCGM_sharedkey := []; AESCGM_keyID := "" |} /\
  NewAESCGM (OtherKeyAlg "none") [] =
    Ok {| AESCGM_alg := OtherKeyAlg "none"; AESCGM_sharedkey := [];
          AESCGM_keyID := "" |} /\
  ECDHESDecrypt_keyalg
    (NewECDHESDecrypt RSA1_5 "A128GCM" recipient_pub [] [] recipient_priv)
  = RSA1_5.
Proof. split_and!; reflexivity. Qed.

End constructors_instances.

(** ** ECDH-ES and ECMR *)

Section key_agreement.
Import Go keyenc.
Context {C : Type} {curve : EllipticCurve C} {collab : Collaborators C}.

(** C5. [ECDHESDecrypt.Decrypt] picks the KDF AlgorithmID and the key size
    by algorithm.  For ECDH_ES it derives with the name of the content
    encryption algorithm and the key length of the content cipher, and the
    derived key is the result, with no unwrap (no cipher call is made).  For
    ECDH_ES_A128KW, A192KW and A256KW it derives with the name of the key
    encryption algorithm and 16, 24 and 32 bytes, and the result is
    [Unwrap] of the encrypted key under the AES cipher of the derived key.
    For every other identifier it fails. *)
Theorem ECDHESDecrypt_Decrypt_selects (kw : ECDHESDecrypt)
    (enckey : list byte) :
  let derive alg keysize :=
    DeriveECDHES alg (ECDHESDecrypt_apu kw) (ECDHESDecrypt_apv kw)
      (ECDHESDecrypt_privkey kw) (ECDHESDecrypt_pubkey kw) keysize in
  (ECDHESDecrypt_keyalg kw = ECDH_ES ->
   forall size,
     contentcipher_KeySize (ECDHESDecrypt_contentalg kw) = Ok size ->
     0 <= size < 2 ^ 32 ->
     ECDHESDecrypt_Decrypt kw enckey =
       match derive (ContentAlgName (ECDHESDecrypt_contentalg kw)) size with
       | Ok key => ([], Ok key)
       | Err err =>
           ([], Err (ErrWrap err "failed to derive ECDHES encryption key"))
       | Panic msg => ([], Panic msg)
       end) /\
  (forall keysize,
     (ECDHESDecrypt_keyalg kw, keysize)
       ∈ [(ECDH_ES_A128KW, 16); (ECDH_ES_A192KW, 24); (ECDH_ES_A256KW, 32)] ->
     ECDHESDecrypt_Decrypt kw enckey =
       match derive (KeyAlgName (ECDHESDecrypt_keyalg kw)) keysize with
       | Ok key =>
           match aes_NewCipher key with
           | Ok block => Unwrap block enckey
           | Err err =>
               ([], Err (ErrWrap err
                           "failed to create cipher for ECDH-ES key wrap"))
           | Panic msg => ([], Panic msg)
           end
       | Err err =>
           ([], Err (ErrWrap err "failed to derive ECDHES encryption key"))
       | Panic msg => ([], Panic msg)
       end) /\
  (ECDHESDecrypt_keyalg kw
     ∉ [ECDH_ES; ECDH_ES_A128KW; ECDH_ES_A192KW; ECDH_ES_A256KW] ->
   ECDHESDecrypt_Decrypt kw enckey
   = ([], Err (ErrInvalidECDHESAlg (ECDHESDecrypt_keyalg kw)))).
Proof.
  intros derive. subst derive. unfold ECDHESDecrypt_Decrypt.
  destruct kw as [keyalg contentalg apu apv privkey pubkey]. simpl.
  split_and!.
  - intros -> size -> Hsize.
    unfold uint32. by rewrite Z.mod_small by lia.
  - intros keysize Hin.
    repeat (apply elem_of_cons in Hin as [[= -> ->]|Hin]; [reflexivity|]).
    by apply elem_of_nil in Hin.
  - intros Hnot.
    destruct keyalg; try reflexivity;
      exfalso; apply Hnot; repeat constructor.
Qed.

(** C7. Once the temporary key is generated, [DeriveECMR] fails with the
    wrapped error of the exchange function ("failed to exchange public
    key") whenever the exchange function returns an error; it fails with
    "expect EC curve type" whenever the curve of the returned response key
    is not the recipient key's curve, and with "server key is not on the
    curve" whenever the returned server key is not on that curve; and when
    the three checks pass its result is that of the Concat-KDF on the
    exchanged secret.  It returns a key only in that last case. *)
Theorem DeriveECMR_validates (alg apu apv : list byte)
    (exchFn : ECMRExchangeFunc C) (pubkey : ecdsa.PublicKey C) (keysize : Z)
    (rnd : list byte) (tempKey : ecdsa.PrivateKey C) :
  ecdsa_GenerateKey (ecdsa.Curve pubkey) rnd = Ok tempKey ->
  let ecCurve := ecdsa.Curve pubkey in
  let derived := DeriveECMR alg apu apv exchFn pubkey keysize rnd in
  (forall err,
     exchFn (ecmr_xfrKey pubkey tempKey) = Err err ->
     derived = Err (ErrWrap err "failed to exchange public key")) /\
  (forall respKey srvKey,
     exchFn (ecmr_xfrKey pubkey tempKey) = Ok (respKey, srvKey) ->
     (ecdsa.Curve respKey <> ecCurve -> derived = Err ErrCurveType) /\
     (ecdsa.Curve respKey = ecCurve ->
      IsOnCurve ecCurve (ecdsa.X srvKey) (ecdsa.Y srvKey) = false ->
      derived = Err ErrServerKeyNotOnCurve) /\
     (IsOnCurve ecCurve (ecdsa.X srvKey) (ecdsa.Y srvKey) = false ->
      derived = Err ErrCurveType \/ derived = Err ErrServerKeyNotOnCurve) /\
     (ecdsa.Curve respKey = ecCurve ->
      IsOnCurve ecCurve (ecdsa.X srvKey) (ecdsa.Y srvKey) = true ->
      derived = read_kdf alg apu apv (pubinfo_of keysize)
                  (ecmr_z pubkey tempKey respKey srvKey) ecCurve keysize)) /\
  (forall key,
     derived = Ok key ->
     exists respKey srvKey,
       exchFn (ecmr_xfrKey pubkey tempKey) = Ok (respKey, srvKey) /\
       ecdsa.Curve respKey = ecCurve /\
       IsOnCurve ecCurve (ecdsa.X srvKey) (ecdsa.Y srvKey) = true /\
       read_kdf alg apu apv (pubinfo_of keysize)
         (ecmr_z pubkey tempKey respKey srvKey) ecCurve keysize = Ok key).
Proof.
  intros Hgen ecCurve derived.
  assert (derived =
    match exchFn (ecmr_xfrKey pubkey tempKey) with
    | Err err => Err (ErrWrap err "failed to exchange public key")
    | Panic msg => Panic msg
    | Ok (respKey, srvKey) =>
        if negb (bool_decide (ecdsa.Curve respKey = ecCurve)) then
          Err ErrCurveType
        else if negb (IsOnCurve ecCurve (ecdsa.X srvKey) (ecdsa.Y srvKey))
        then Err ErrServerKeyNotOnCurve
        else read_kdf alg apu apv (pubinfo_of keysize)
               (ecmr_z pubkey tempKey respKey srvKey) ecCurve keysize
    end) as ->.
  { unfold derived, ecCurve, DeriveECMR, ecmr_xfrKey, ecmr_z, pubinfo_of.
    rewrite Hgen.
    destruct (Add _ _ _ _ _) as [x y]; simpl.
    destruct (exchFn _) as [[respKey srvKey]| |]; try reflexivity.
    destruct (negb (bool_decide _)); [reflexivity|].
    destruct (negb (IsOnCurve _ _ _)); [reflexivity|].
    destruct (ScalarMult _ _ _ _) as [x' y']; simpl.
    by destruct (Add _ _ _ _ _). }
  split_and!.
  - by intros err ->.
  - intros respKey srvKey ->. split_and!.
    + intros Hne. by rewrite bool_decide_eq_false_2.
    + intros He Hoff. by rewrite bool_decide_eq_true_2, Hoff.
    + intros Hoff. rewrite Hoff.
      destruct (bool_decide _); simpl; auto.
    + intros He Hon. by rewrite bool_decide_eq_true_2, Hon.
  - intros key.
    destruct (exchFn _) as [[respKey srvKey]| |]; try done.
    destruct (bool_decide_reflect (ecdsa.Curve respKey = ecCurve)); [|done].
    destruct (IsOnCurve _ _ _) eqn:Hon; [|done]. simpl.
    intros Hkdf. by exists respKey, srvKey.
Qed.

End key_agreement.

Section key_agreement_instances.
Import Go keyenc Examples.

Lemma ECDHESDecrypt_Decrypt_selects_witness :
  ECDHESDecrypt_Decrypt
    (NewECDHESDecrypt ECDH_ES "A128GCM" recipient_pub [] [] recipient_priv) []
  = ([], Ok (bytes_of [15; 65; 49; 50; 56; 71; 67; 77;
                       0; 0; 0; 128; 0; 0; 0; 0])) /\
  ECDHESDecrypt_Decrypt
    (NewECDHESDecrypt RSA1_5 "A128GCM" recipient_pub [] [] recipient_priv) []
  = ([], Err (ErrInvalidECDHESAlg RSA1_5)).
Proof.
  split.
  - destruct (ECDHESDecrypt_Decrypt_selects
                (NewECDHESDecrypt ECDH_ES "A128GCM" recipient_pub [] []
                                  recipient_priv) [])
      as (Hdirect & _ & _).
    rewrite (Hdirect eq_refl 16 eq_refl ltac:(lia)). reflexivity.
  - destruct (ECDHESDecrypt_Decrypt_selects
                (NewECDHESDecrypt RSA1_5 "A128GCM" recipient_pub [] []
                                  recipient_priv) [])
      as (_ & _ & Hother).
    apply Hother. simpl. intros Hin.
    repeat (apply elem_of_cons in Hin as [Hin|Hin]; [discriminate Hin|]).
    by apply elem_of_nil in Hin.
Defined.

Lemma test_temporary_key :
  ecdsa_GenerateKey (ecdsa.Curve recipient_pub) [x02] = Ok recipient_priv.
Proof. vm_compute. reflexivity. Qed.

Lemma DeriveECMR_validates_witness :
  DeriveECMR (bytes_of [65]) [] [] exch_fails recipient_pub 16 [x02]
  = Err (ErrWrap (ErrExternal "connection refused")
                 "failed to exchange public key") /\
  DeriveECMR (bytes_of [65]) [] [] exch_other_curve recipient_pub 16 [x02]
  = Err ErrCurveType /\
  DeriveECMR (bytes_of [65]) [] [] exch_secret_7 recipient_pub 16 [x02]
  = Ok (bytes_of [77; 65; 0; 0; 0; 128; 0; 0; 0; 0; 0; 0; 0; 0; 0; 0]).
Proof.
  split_and!.
  - destruct (DeriveECMR_validates (bytes_of [65]) [] [] exch_fails
                recipient_pub 16 [x02] recipient_priv test_temporary_key)
      as (Hexch & _ & _).
    by apply Hexch.
  - destruct (DeriveECMR_validates (bytes_of [65]) [] [] exch_other_curve
                recipient_pub 16 [x02] recipient_priv test_temporary_key)
      as (_ & Hchecks & _).
    destruct (Hchecks _ _ eq_refl) as (Hcurve & _).
    apply Hcurve. discriminate.
  - destruct (DeriveECMR_validates (bytes_of [65]) [] [] exch_secret_7
                recipient_pub 16 [x02] recipient_priv test_temporary_key)
      as (_ & Hchecks & _).
    destruct (Hchecks _ _ eq_refl) as (_ & _ & _ & Hkdf).
    rewrite (Hkdf eq_refl eq_refl). reflexivity.
Defined.

End key_agreement_instances.

(** * Properties of the rest of the two files *)

(** ** AES key wrap: calls, outcomes, and the two directions *)

Section keywrap_calls.
Import Go keyenc.
Local Open Scope nat_scope.

Lemma wrap_loop_calls kek n ts :
  (ts = [] \/ 0 < n) ->
  forall st, kw_wf n st ->
    exists new,
      kw_calls (fold_left (wrap_step kek n) ts st) = kw_calls st ++ new /\
      length new = length ts /\ Forall encrypts_block new.
Proof.
  intros Hn. induction ts as [|t ts IH]; intros st Hwf.
  - exists []. by rewrite app_nil_r.
  - destruct Hn as [|Hn]; [done|].
    assert (t mod n < n) as Hi by (apply Nat.mod_upper_bound; lia).
    destruct (IH (or_intror Hn) (wrap_step kek n st t)
                 (wrap_step_wf kek n st t Hwf Hi)) as (new & Hcalls & Hlen & Hall).
    exists (EvEncrypt (copy_at (kw_buffer st) keywrapChunkLen
                         (kw_r st !!! (t mod n))) :: new).
    simpl. rewrite Hcalls. simpl.
    rewrite <- app_assoc. split; [done|]. split; [by f_equal|].
    constructor; [|done]. eexists. split; [done|].
    rewrite length_copy_at. by destruct Hwf.
Qed.

Lemma unwrap_loop_wf block n ts st :
  (ts = [] \/ 0 < n) -> kw_wf n st ->
  kw_wf n (fold_left (unwrap_step block n) ts st).
Proof.
  intros Hn. revert st. induction ts as [|t ts IH]; intros st Hwf; [done|].
  destruct Hn as [|Hn]; [done|]. simpl.
  apply IH; [by right|]. apply unwrap_step_wf; [done|].
  apply Nat.mod_upper_bound. lia.
Qed.

Lemma unwrap_loop_calls block n ts :
  (ts = [] \/ 0 < n) ->
  forall st, kw_wf n st ->
    exists new,
      kw_calls (fold_left (unwrap_step block n) ts st) = kw_calls st ++ new /\
      length new = length ts /\ Forall decrypts_block new.
Proof.
  intros Hn. induction ts as [|t ts IH]; intros st Hwf.
  - exists []. by rewrite app_nil_r.
  - destruct Hn as [|Hn]; [done|].
    assert (t mod n < n) as Hi by (apply Nat.mod_upper_bound; lia).
    destruct (IH (or_intror Hn) (unwrap_step block n st t)
                 (unwrap_step_wf block n st t Hwf Hi))
      as (new & Hcalls & Hlen & Hall).
    exists (EvDecrypt
              (copy_at (xor_tBytes (kw_buffer st)
                          (copy (make keywrapChunkLen)
                                (PutUint64 (Z.of_nat t + 1))))
                       keywrapChunkLen (kw_r st !!! (t mod n))) :: new).
    simpl. rewrite Hcalls. simpl.
    rewrite <- app_assoc. split; [done|]. split; [by f_equal|].
    constructor; [|done]. eexists. split; [done|].
    destruct Hwf as (Hb & _).
    rewrite length_copy_at, length_xor_tBytes;
      first [done|apply length_tBytes|lia].
Qed.

Lemma loop_bound n : seq 0 (6 * n) = [] \/ 0 < n.
Proof. destruct n; [by left|right; lia]. Qed.

(** X1. [Wrap] calls [Encrypt] exactly [6n] times on an input of [n] blocks,
    each time on a full 16-byte buffer, and calls nothing else. *)
Theorem Wrap_encrypt_calls (kek : Block) (cek : list byte) (n : nat) :
  length cek = 8 * n ->
  length (Wrap kek cek).1 = 6 * n /\ Forall encrypts_block (Wrap kek cek).1.
Proof.
  intros Hlen. rewrite (Wrap_blocks kek cek n Hlen). cbn [fst].
  destruct (wrap_init_spec cek n Hlen) as (Hwf & _).
  assert (length cek / 8 = n) as Hdiv
    by (rewrite Hlen, Nat.mul_comm, Nat.div_mul; lia).
  unfold wrap_loop, keywrapChunkLen. rewrite Hdiv.
  destruct (wrap_loop_calls kek n (seq 0 (6 * n)) (loop_bound n) _ Hwf)
    as (new & Hcalls & Hnew & Hall).
  rewrite Hcalls. change (kw_calls (wrap_init cek)) with (@nil event).
  rewrite app_nil_l. rewrite length_seq in Hnew. by split.
Qed.

Lemma Wrap_encrypt_calls_witness :
  length (Wrap Examples.reversal_cipher
               (Examples.bytes_of [1; 2; 3; 4; 5; 6; 7; 8]%Z)).1 = 6 * 1 /\
  Forall encrypts_block
    (Wrap Examples.reversal_cipher
          (Examples.bytes_of [1; 2; 3; 4; 5; 6; 7; 8]%Z)).1.
Proof. apply Wrap_encrypt_calls. reflexivity. Defined.

Lemma length_fill (f : list byte -> nat -> list byte) l out :
  (forall out i, length (f out i) = length out) ->
  length (fold_left f l out) = length out.
Proof.
  intros Hf. revert out. induction l as [|i l IH]; intros out; [done|].
  simpl. by rewrite IH, Hf.
Qed.

Lemma unwrap_init_wf c n : kw_wf n (unwrap_init c n).
Proof.
  unfold unwrap_init, kw_wf, keywrapChunkLen. simpl kw_buffer; simpl kw_r.
  split_and!.
  - by rewrite length_app, length_copy.
  - by rewrite length_map, length_seq.
  - apply List.Forall_forall. intros b (i & <- & _)%in_map_iff.
    by rewrite length_copy.
Qed.

(** X2. On an input of [n+1] blocks [Unwrap] never panics: it calls [Decrypt]
    exactly [6n] times, each time on a full 16-byte buffer, then compares
    [buffer[:8]] with the default IV once, and either fails with "key
    unwrap: failed to unwrap key" or returns exactly [8n] bytes. *)
Theorem Unwrap_outcomes (block : Block) (c : list byte) (n : nat) :
  length c = 8 * (n + 1) ->
  exists decs prefix,
    (Unwrap block c).1 = decs ++ [EvConstantTimeCompare prefix keywrapDefaultIV] /\
    length decs = 6 * n /\ Forall decrypts_block decs /\
    ((prefix <> keywrapDefaultIV /\ (Unwrap block c).2 = Err ErrKeyUnwrapFailed) \/
     (prefix = keywrapDefaultIV /\
      exists out, (Unwrap block c).2 = Ok out /\ length out = 8 * n)).
Proof.
  intros Hlen. unfold Unwrap, keywrapChunkLen.
  replace (length c mod 8) with 0
    by (rewrite Hlen, Nat.mul_comm, Nat.Div0.mod_mul; lia).
  replace (Z.of_nat (length c) / Z.of_nat 8 - 1)%Z
    with (Z.of_nat n) by (rewrite Hlen; Z.div_mod_to_equations; lia).
  simpl negb. cbv iota.
  destruct (Z.ltb_spec (Z.of_nat n) 0) as [?|_]; [lia|].
  rewrite Nat2Z.id. unfold unwrap_loop.
  destruct (unwrap_loop_calls block n (rev (seq 0 (6 * n))))
    with (st := unwrap_init c n) as (decs & Hcalls & Hdecs & Hall).
  { destruct n; [by left|right; lia]. }
  { apply unwrap_init_wf. }
  set (st := fold_left (unwrap_step block n) (rev (seq 0 (6 * n)))
               (unwrap_init c n)) in *.
  rewrite length_rev, length_seq in Hdecs.
  exists decs, (take 8 (kw_buffer st)).
  unfold ConstantTimeCompare.
  destruct (bool_decide_reflect (take 8 (kw_buffer st) = keywrapDefaultIV))
    as [Heq|Hne]; simpl.
  - rewrite Hcalls. split_and!; try done.
    right. split; [done|]. eexists. split; [reflexivity|].
    rewrite length_fill by (intros; apply length_copy_at).
    rewrite length_make. lia.
  - rewrite Hcalls. split_and!; try done. by left.
Qed.

Lemma Unwrap_outcomes_witness :
  exists decs prefix,
    (Unwrap Examples.reversal_cipher (replicate 16 x00)).1
      = decs ++ [EvConstantTimeCompare prefix keywrapDefaultIV] /\
    length decs = 6 * 1 /\ Forall decrypts_block decs /\
    ((prefix <> keywrapDefaultIV /\
      (Unwrap Examples.reversal_cipher (replicate 16 x00)).2
        = Err ErrKeyUnwrapFailed) \/
     (prefix = keywrapDefaultIV /\
      exists out,
        (Unwrap Examples.reversal_cipher (replicate 16 x00)).2 = Ok out /\
        length out = 8 * 1)).
Proof. apply Unwrap_outcomes. reflexivity. Defined.

End keywrap_calls.

Section keywrap_inverse.
Import Go keyenc.
Local Open Scope nat_scope.

(** [Unwrap] after [Wrap] on any whole number of blocks, as used by the
    facades below. *)
Lemma Unwrap_inverts_Wrap k m n :
  valid_block_cipher k -> length m = 8 * n ->
  exists c, (Wrap k m).2 = Ok c /\ length c = 8 * (n + 1) /\
            (Unwrap k c).2 = Ok m.
Proof.
  intros Hk Hlen.
  rewrite (Wrap_blocks k m n Hlen). eexists. split; [reflexivity|].
  destruct (wrap_init_spec m n Hlen) as (Hwf0 & HIV & Hm).
  pose proof (wrap_loop_wf' k m n Hlen) as (Hb & Hn & HR).
  set (stw := wrap_loop k m) in *.
  set (A := take 8 (kw_buffer stw)). set (R := kw_r stw) in *.
  assert (length A = 8) as HA by (unfold A; rewrite length_take; lia).
  assert (length (A ++ concat R) = 8 * (n + 1)) as Hc.
  { rewrite length_app, length_concat_blocks by done. lia. }
  split; [done|].
  destruct (unwrap_init_spec A R HA HR) as (Hwfu & HAu & HRu).
  rewrite Hn in Hwfu, HAu, HRu.
  assert (length m / 8 = n) as Hdiv
    by (rewrite Hlen, Nat.mul_comm, Nat.div_mul; lia).
  destruct (unwrap_loop_wrap_loop k n (seq 0 (6 * n)) Hk (loop_bound n)
              (wrap_init m) (unwrap_init (A ++ concat R) n) Hwf0 Hwfu)
    as (_ & (HAl & Hrl)).
  { replace (fold_left (wrap_step k n) (seq 0 (6 * n)) (wrap_init m))
      with stw
      by (unfold stw, wrap_loop, keywrapChunkLen; by rewrite Hdiv).
    by split. }
  unfold Unwrap, keywrapChunkLen.
  replace (length (A ++ concat R) mod 8) with 0
    by (rewrite Hc, Nat.mul_comm, Nat.Div0.mod_mul; lia).
  replace (Z.of_nat (length (A ++ concat R)) / Z.of_nat 8 - 1)%Z
    with (Z.of_nat n) by (rewrite Hc; Z.div_mod_to_equations; lia).
  simpl negb. cbv iota.
  destruct (Z.ltb_spec (Z.of_nat n) 0) as [?|_]; [lia|].
  rewrite Nat2Z.id. unfold unwrap_loop.
  set (stu := fold_left (unwrap_step k n) (rev (seq 0 (6 * n)))
                (unwrap_init (A ++ concat R) n)) in *.
  rewrite HAl, HIV.
  unfold ConstantTimeCompare. rewrite bool_decide_eq_true_2 by done.
  simpl negb. cbv iota. cbn [snd]. f_equal.
  rewrite Hrl. destruct Hwf0 as (_ & Hn0 & HR0).
  rewrite <- Hm at 2.
  replace (n * 8) with (8 * length (kw_r (wrap_init m))) by lia.
  by apply (fill_blocks _ (kw_r (wrap_init m)) []).
Qed.

(** X3. Under one key [Wrap] is injective: two keys of whole blocks with the
    same wrapped form are the same key. *)
Theorem Wrap_injective (k : Block) (m1 m2 : list byte) :
  valid_block_cipher k ->
  length m1 mod 8 = 0 -> length m2 mod 8 = 0 ->
  (Wrap k m1).2 = (Wrap k m2).2 ->
  m1 = m2.
Proof.
  intros Hk H1 H2 Heq.
  apply Nat.Div0.div_exact in H1, H2.
  destruct (Unwrap_inverts_Wrap k m1 _ Hk H1) as (c1 & Hw1 & _ & Hu1).
  destruct (Unwrap_inverts_Wrap k m2 _ Hk H2) as (c2 & Hw2 & _ & Hu2).
  rewrite Hw1, Hw2 in Heq. injection Heq as ->. congruence.
Qed.

Lemma Wrap_injective_witness :
  Examples.bytes_of [1; 2; 3; 4; 5; 6; 7; 8]%Z
  = Examples.bytes_of [257; 258; 259; 260; 261; 262; 263; 264]%Z.
Proof.
  apply (Wrap_injective Examples.reversal_cipher).
  - exact reversal_cipher_valid.
  - reflexivity.
  - reflexivity.
  - reflexivity.
Defined.

End keywrap_inverse.

Section keywrap_image.
Import Go keyenc.
Local Open Scope nat_scope.

(** One round of [Unwrap], written on [A = buffer[:8]] and the registers. *)
Lemma unwrap_step_rounds k n st t :
  block_permutation k -> kw_wf n st -> t mod n < n ->
  let tBytes := copy (make keywrapChunkLen) (PutUint64 (Z.of_nat t + 1)) in
  let src := zip_with byte_xor (take 8 (kw_buffer st)) tBytes
               ++ kw_r st !!! (t mod n) in
  let B := Decrypt k src in
  length src = 16 /\ length B = 16 /\
  take 8 (kw_buffer (unwrap_step k n st t)) = take 8 B /\
  kw_r (unwrap_step k n st t) = <[t mod n := drop 8 B]> (kw_r st).
Proof.
  intros [_ Hk] Hwf Hi tBytes src B.
  pose proof (kw_wf_register _ _ _ Hwf Hi) as Hri.
  assert (length tBytes = 8) as HtB by apply length_tBytes.
  destruct Hwf as (Hb & Hn & Hall).
  assert (length src = 16) as Hsrc.
  { unfold src. rewrite length_app, length_zip_with, length_take. lia. }
  destruct (Hk _ Hsrc) as [HB _]. fold B in HB.
  assert (copy_at (xor_tBytes (kw_buffer st) tBytes) keywrapChunkLen
            (kw_r st !!! (t mod n)) = src) as Hcopy.
  { rewrite copy_at_tail; [|rewrite length_xor_tBytes; lia|done].
    by rewrite take_xor_tBytes by lia. }
  unfold unwrap_step; simpl. fold tBytes. rewrite Hcopy. fold B.
  rewrite (copy_full src B) by lia.
  split_and!; try done.
  f_equal. apply copy_full. rewrite length_drop. lia.
Qed.

(** One round of [Wrap] undoes the round of [Unwrap] with the same [t]. *)
Lemma wrap_step_unwrap_step k n st st2 t :
  block_permutation k -> kw_wf n st -> kw_wf n st2 -> t mod n < n ->
  kw_same st2 (unwrap_step k n st t) ->
  kw_same (wrap_step k n st2 t) st.
Proof.
  intros Hk Hwf Hwf2 Hi [HA HR].
  destruct (unwrap_step_rounds k n st t Hk Hwf Hi) as (Hsrc & HB & HA' & HR').
  set (tBytes := copy (make keywrapChunkLen) (PutUint64 (Z.of_nat t + 1))) in *.
  set (src := zip_with byte_xor (take 8 (kw_buffer st)) tBytes
                ++ kw_r st !!! (t mod n)) in *.
  set (B := Decrypt k src) in *.
  pose proof (kw_wf_register _ _ _ Hwf Hi) as Hri.
  assert (length tBytes = 8) as HtB by apply length_tBytes.
  destruct Hk as [_ Hk]. destruct (Hk _ Hsrc) as [_ HE]. fold B in HE.
  destruct Hwf as (Hb & Hn & Hall). destruct Hwf2 as (Hb2 & Hn2 & Hall2).
  rewrite HA' in HA. rewrite HR' in HR.
  assert (kw_r st2 !!! (t mod n) = drop 8 B) as Hr2.
  { rewrite HR. apply list_lookup_total_insert_eq. lia. }
  assert (copy_at (kw_buffer st2) keywrapChunkLen (kw_r st2 !!! (t mod n)) = B)
    as Hsrc2.
  { rewrite copy_at_tail; [|done|rewrite Hr2, length_drop; lia].
    rewrite HA, Hr2. apply take_drop. }
  assert (length (zip_with byte_xor (take 8 (kw_buffer st)) tBytes) = 8)
    as Hz by (rewrite length_zip_with, length_take; lia).
  unfold kw_same, wrap_step; simpl. fold tBytes.
  rewrite Hsrc2, HE, (copy_full B src) by lia.
  split.
  - rewrite take_xor_tBytes by lia. unfold src.
    rewrite take_app_length' by done.
    apply zip_xor_cancel. rewrite length_take. lia.
  - rewrite drop_xor_tBytes by lia. unfold src.
    rewrite drop_app_length' by done.
    rewrite (copy_full _ (kw_r st !!! (t mod n)))
      by (rewrite Hr2, length_drop; lia).
    rewrite HR, list_insert_insert_eq.
    apply list_insert_id, list_lookup_lookup_total_lt. lia.
Qed.

(** The loop of [Wrap] undoes the loop of [Unwrap]. *)
Lemma wrap_loop_unwrap_loop k n ts :
  block_permutation k -> (ts = [] \/ 0 < n) ->
  forall st st2,
    kw_wf n st -> kw_wf n st2 ->
    kw_same st2 (fold_left (unwrap_step k n) (rev ts) st) ->
    kw_same (fold_left (wrap_step k n) ts st2) st.
Proof.
  intros Hk Hn. induction ts as [|t ts IH]; intros st st2 Hwf Hwf2 Hsame.
  - done.
  - destruct Hn as [|Hn]; [done|].
    assert (t mod n < n) as Hi by (apply Nat.mod_upper_bound; lia).
    simpl in *. rewrite fold_left_app in Hsame. simpl in Hsame.
    apply (IH (or_intror Hn)); [done|by apply wrap_step_wf|].
    apply wrap_step_unwrap_step in Hsame; try done.
    apply unwrap_loop_wf; [by right|done].
Qed.

(** A ciphertext of whole blocks is its first block followed by the
    registers [Unwrap] cuts from the rest. *)
Lemma unwrap_init_blocks c n :
  length c = 8 * (n + 1) ->
  take 8 (kw_buffer (unwrap_init c n)) = take 8 c /\
  take 8 c ++ concat (kw_r (unwrap_init c n)) = c.
Proof.
  intros Hlen.
  set (R := map (fun i => take 8 (drop (i * 8) (drop 8 c))) (seq 0 n)).
  assert (concat R = drop 8 c) as HcR.
  { unfold R. rewrite concat_blocks_upto. apply take_ge.
    rewrite length_drop. lia. }
  assert (Forall (fun b => length b = 8) R) as HR.
  { apply List.Forall_forall. intros b (i & <- & Hi%in_seq)%in_map_iff.
    rewrite length_take, !length_drop. lia. }
  assert (length R = n) as HlR by (unfold R; by rewrite length_map, length_seq).
  assert (length (take 8 c) = 8) as HA by (rewrite length_take; lia).
  destruct (unwrap_init_spec (take 8 c) R HA HR) as (_ & HAu & HRu).
  rewrite HcR, take_drop, HlR in HAu, HRu.
  rewrite HAu, HRu, HcR. split; [done|apply take_drop].
Qed.

(** The registers [Wrap] cuts from the concatenation of 8-byte blocks are
    these blocks. *)
Lemma wrap_init_of_concat (R : list (list byte)) :
  Forall (fun b => length b = 8) R ->
  kw_r (wrap_init (concat R)) = R.
Proof.
  intros HR. pose proof (length_concat_blocks R HR) as Hc.
  unfold wrap_init, keywrapChunkLen. cbn [kw_r].
  replace (length (concat R) / 8) with (length R)
    by (rewrite Hc, Nat.mul_comm, Nat.div_mul; lia).
  etrans; [|apply map_lookup_total_seq].
  apply map_ext_in. intros i Hi%in_seq.
  rewrite copy_prefix by (rewrite length_make, length_drop; lia).
  rewrite length_make. apply block_of_concat; [done|lia].
Qed.

(** X4. For a cipher that permutes the 16-byte blocks, [Unwrap] accepts only
    what [Wrap] produces: if [Unwrap(k, c)] returns [m], then [Wrap(k, m)]
    returns [c]. *)
Theorem Unwrap_accepts_only_wrapped (k : Block) (c m : list byte) :
  block_permutation k ->
  (Unwrap k c).2 = Ok m ->
  (Wrap k m).2 = Ok c.
Proof.
  intros Hk. unfold Unwrap, keywrapChunkLen.
  destruct (Nat.eqb_spec (length c mod 8) 0) as [Hmod|]; [|done].
  simpl negb. cbv iota.
  destruct (Z.ltb_spec (Z.of_nat (length c) / Z.of_nat 8 - 1) 0)
    as [|Hpos]; [done|].
  apply Nat.Div0.div_exact in Hmod.
  assert ((Z.of_nat (length c) / Z.of_nat 8)%Z = Z.of_nat (length c / 8))
    as Hq by (rewrite Hmod at 1; Z.div_mod_to_equations; lia).
  rewrite Hq in *.
  set (n := Z.to_nat (Z.of_nat (length c / 8) - 1)) in *.
  assert (length c = 8 * (n + 1)) as Hlen by lia.
  unfold unwrap_loop.
  set (stu := fold_left (unwrap_step k n) (rev (seq 0 (6 * n)))
                (unwrap_init c n)).
  unfold ConstantTimeCompare.
  destruct (bool_decide_reflect (take 8 (kw_buffer stu) = keywrapDefaultIV))
    as [HIV|]; [|done].
  simpl negb. cbv iota. cbn [snd]. intros [= <-].
  pose proof (unwrap_loop_wf k n (rev (seq 0 (6 * n))) (unwrap_init c n))
    as Hwfu.
  destruct Hwfu as (Hbu & Hnu & HRu);
    [destruct n; [by left|right; lia]|apply unwrap_init_wf|].
  fold stu in Hbu, Hnu, HRu.
  assert (fold_left (fun out i => copy_at out (i * 8) (kw_r stu !!! i))
            (seq 0 (length (kw_r stu))) (make (n * 8))
          = concat (kw_r stu)) as Hm.
  { replace (n * 8) with (8 * length (kw_r stu)) by lia.
    by apply (fill_blocks _ (kw_r stu) []). }
  rewrite Hm.
  assert (length (concat (kw_r stu)) = 8 * n) as Hlm
    by (rewrite length_concat_blocks by done; lia).
  rewrite (Wrap_blocks k _ n Hlm).
  destruct (wrap_init_spec (concat (kw_r stu)) n Hlm) as (Hwf0 & HIV0 & _).
  destruct (wrap_loop_unwrap_loop k n (seq 0 (6 * n)) Hk (loop_bound n)
              (unwrap_init c n) (wrap_init (concat (kw_r stu)))
              (unwrap_init_wf c n) Hwf0) as [HA HR].
  { fold stu. split; [by rewrite HIV0, HIV|by apply wrap_init_of_concat]. }
  unfold wrap_loop, keywrapChunkLen.
  replace (length (concat (kw_r stu)) / 8) with n
    by (rewrite Hlm, Nat.mul_comm, Nat.div_mul; lia).
  rewrite HA, HR. cbn [snd]. f_equal.
  destruct (unwrap_init_blocks c n Hlen) as [-> ->]. done.
Qed.

Lemma reversal_cipher_permutation :
  block_permutation Examples.reversal_cipher.
Proof.
  split; [exact reversal_cipher_valid|].
  intros b Hb. simpl. split; [by rewrite length_rev|apply rev_involutive].
Qed.

Lemma Unwrap_accepts_only_wrapped_witness :
  (Wrap Examples.reversal_cipher
        (Examples.bytes_of [1; 2; 3; 4; 5; 6; 7; 8]%Z)).2
  = Ok (Examples.bytes_of
          [166; 166; 166; 166; 166; 166; 166; 166; 6; 2; 3; 4; 5; 6; 7; 8]%Z).
Proof.
  apply (Unwrap_accepts_only_wrapped Examples.reversal_cipher).
  - exact reversal_cipher_permutation.
  - vm_compute. reflexivity.
Defined.

End keywrap_image.

(** ** The facades of keyenc.go *)

Section facades.
Import Go keyenc keyenc2.
Context {C : Type} {curve : EllipticCurve C} {collab : Collaborators C}
        {rsaenc : RSAEncryption}.

(** X5. [AESCGM.Decrypt] undoes [AESCGM.Encrypt]: when [aes.NewCipher] accepts
    the shared key and the CEK is a whole number of 8-byte blocks, [Encrypt]
    returns a [ByteKey] of 8 more bytes and [Decrypt] of these bytes returns
    the CEK. *)
Theorem AESCGM_Decrypt_Encrypt (kw : AESCGM) (block : Block)
    (cek : list byte) (n : nat) :
  aes_NewCipher (AESCGM_sharedkey kw) = Ok block ->
  valid_block_cipher block ->
  length cek = (8 * n)%nat ->
  exists enckey,
    (AESCGM_Encrypt kw cek).2 = Ok (ByteKey enckey) /\
    length enckey = (8 * (n + 1))%nat /\
    (AESCGM_Decrypt kw enckey).2 = Ok cek.
Proof.
  intros Haes Hvalid Hlen.
  destruct (Unwrap_inverts_Wrap block cek n Hvalid Hlen)
    as (c & Hwrap & Hlc & Hunwrap).
  exists c. unfold AESCGM_Encrypt, AESCGM_Decrypt. rewrite Haes.
  destruct (Wrap block cek) as [calls res]. simpl in Hwrap. subst res.
  destruct (Unwrap block c) as [calls' res']. simpl in Hunwrap. subst res'.
  done.
Qed.

(** X6. Both methods of [AESCGM] fail before any cipher call when
    [aes.NewCipher] rejects the shared key, and [Encrypt] fails without a
    cipher call on a CEK that is not a whole number of 8-byte blocks. *)
Theorem AESCGM_failures (kw : AESCGM) (input : list byte) :
  (forall err,
     aes_NewCipher (AESCGM_sharedkey kw) = Err err ->
     AESCGM_Encrypt kw input
       = ([], Err (ErrWrap err "failed to create cipher from shared key")) /\
     AESCGM_Decrypt kw input
       = ([], Err (ErrWrap err "failed to create cipher from shared key"))) /\
  (forall block,
     aes_NewCipher (AESCGM_sharedkey kw) = Ok block ->
     (length input mod 8 <> 0)%nat ->
     AESCGM_Encrypt kw input
       = ([], Err (ErrWrap ErrKeywrapInput "keywrap: failed to wrap key")) /\
     AESCGM_Decrypt kw input
       = ([], Err (ErrWrap ErrKeyunwrapInput "failed to unwrap data"))).
Proof.
  split.
  - intros err Haes. unfold AESCGM_Encrypt, AESCGM_Decrypt. by rewrite Haes.
  - intros block Haes Hmod. unfold AESCGM_Encrypt, AESCGM_Decrypt.
    rewrite Haes. unfold Wrap, Unwrap, keywrapChunkLen.
    by destruct (Nat.eqb_spec (length input mod 8) 0).
Qed.

(** X7. The key that [DeriveECDHES] and [DeriveECMR] return always has exactly
    [keysize] bytes, however many bytes the KDF delivered. *)
Theorem derived_key_length (alg apu apv : list byte) (keysize : Z)
    (key : list byte) :
  (forall privkey pubkey,
     DeriveECDHES alg apu apv privkey pubkey keysize = Ok key ->
     length key = Z.to_nat keysize) /\
  (forall exchFn pubkey rnd,
     DeriveECMR alg apu apv exchFn pubkey keysize rnd = Ok key ->
     length key = Z.to_nat keysize).
Proof.
  assert (forall pubinfo z c,
            read_kdf alg apu apv pubinfo z c keysize = Ok key ->
            length key = Z.to_nat keysize) as Hkdf.
  { intros pubinfo z c. unfold read_kdf.
    destruct (concatkdf_Read _ _ _ _ _ _ _); [|done..].
    intros [= <-]. by rewrite length_copy, length_make. }
  split.
  - intros privkey pubkey. unfold DeriveECDHES.
    destruct (negb _); [done|].
    destruct (ScalarMult _ _ _ _). apply Hkdf.
  - intros exchFn pubkey rnd. unfold DeriveECMR.
    destruct (ecdsa_GenerateKey _ _); [|done..].
    destruct (Add _ _ _ _ _).
    destruct (exchFn _) as [[respKey srvKey]| |]; [|done..].
    destruct (negb (bool_decide _)); [done|].
    destruct (negb (IsOnCurve _ _ _)); [done|].
    destruct (ScalarMult _ _ _ _). destruct (Add _ _ _ _ _). apply Hkdf.
Qed.

(** [DeriveECDHES] refuses a public key that is not on the private key's
    curve, whatever the other arguments. *)
Theorem DeriveECDHES_off_curve (alg apu apv : list byte)
    (privkey : ecdsa.PrivateKey C) (pubkey : ecdsa.PublicKey C) (keysize : Z) :
  IsOnCurve (ecdsa.Curve (ecdsa.Public privkey))
            (ecdsa.X pubkey) (ecdsa.Y pubkey) = false ->
  DeriveECDHES alg apu apv privkey pubkey keysize = Err ErrNotOnPrivkeyCurve.
Proof. intros Hoff. unfold DeriveECDHES. by rewrite Hoff. Qed.

(** X8. [ECDHESDecrypt.Decrypt] undoes [ECDHESEncrypt.Encrypt] in the key-wrap
    modes: when the generator of the encrypter hands out the key [K] with
    an ephemeral private key, [aes.NewCipher] accepts [K], and the
    decrypter derives the same [K], then [Encrypt] returns the wrapped CEK
    together with that ephemeral key and [Decrypt] of the wrapped bytes
    returns the CEK. *)
Theorem ECDHESDecrypt_Decrypt_Encrypt (enc : ECDHESEncrypt C)
    (dec : ECDHESDecrypt) (cek rnd K : list byte)
    (eph : ecdsa.PrivateKey C) (block : Block) (keysize : Z) (n : nat) :
  ECDHESEncrypt_generator enc rnd = Ok (ByteWithECPrivateKey K eph) ->
  aes_NewCipher K = Ok block ->
  valid_block_cipher block ->
  length cek = (8 * n)%nat ->
  (ECDHESDecrypt_keyalg dec, keysize)
    ∈ [(ECDH_ES_A128KW, 16); (ECDH_ES_A192KW, 24); (ECDH_ES_A256KW, 32)] ->
  DeriveECDHES (KeyAlgName (ECDHESDecrypt_keyalg dec))
    (ECDHESDecrypt_apu dec) (ECDHESDecrypt_apv dec)
    (ECDHESDecrypt_privkey dec) (ECDHESDecrypt_pubkey dec) keysize = Ok K ->
  exists jek,
    (ECDHESEncrypt_Encrypt enc cek rnd).2
      = Done (ByteWithECPrivateKey jek eph) /\
    (ECDHESDecrypt_Decrypt dec jek).2 = Ok cek.
Proof.
  intros Hgen Haes Hvalid Hlen Hmode Hderive.
  destruct (Unwrap_inverts_Wrap block cek n Hvalid Hlen)
    as (c & Hwrap & _ & Hunwrap).
  exists c. split.
  - unfold ECDHESEncrypt_Encrypt. rewrite Hgen, Haes.
    destruct (Wrap block cek) as [calls res]. simpl in Hwrap. by subst res.
  - unfold ECDHESDecrypt_Decrypt.
    destruct dec as [keyalg contentalg apu apv privkey pubkey]. simpl in *.
    repeat (apply elem_of_cons in Hmode as [[= -> ->]|Hmode];
            [by rewrite Hderive, Haes|]).
    by apply elem_of_nil in Hmode.
Qed.

(** X9. [ECMRDecrypt.Decrypt] supports the identifier ECMR only, and never
    unwraps: every other identifier is refused before a key is generated or
    exchanged, and for ECMR the encrypted key and the AES cipher play no
    part, the result being the derived key (or the failure of the
    derivation). *)
Theorem ECMRDecrypt_Decrypt_never_unwraps (kw : ECMRDecrypt)
    (enckey rnd : list byte) :
  (ECMRDecrypt_Decrypt kw enckey rnd).1 = [] /\
  ECMRDecrypt_Decrypt kw enckey rnd = ECMRDecrypt_Decrypt kw [] rnd /\
  (ECMRDecrypt_keyalg kw <> ECMR ->
   ECMRDecrypt_Decrypt kw enckey rnd
   = ([], Failed (ErrInvalidECMRAlg (ECMRDecrypt_keyalg kw)))) /\
  (ECMRDecrypt_keyalg kw = ECMR ->
   forall size,
     contentcipher_KeySize (ECMRDecrypt_contentalg kw) = Ok size ->
     ECMRDecrypt_Decrypt kw enckey rnd =
       match DeriveECMR (ContentAlgName (ECMRDecrypt_contentalg kw))
               (ECMRDecrypt_apu kw) (ECMRDecrypt_apv kw)
               (ECMRDecrypt_exchFn kw) (ECMRDecrypt_pubkey kw)
               (uint32 size) rnd with
       | Ok key => ([], Done key)
       | Err err =>
           ([], Failed (Known (ErrWrap err
                                 "failed to derive ECMR encryption key")))
       | Panic msg => ([], Panicked msg)
       end).
Proof.
  unfold ECMRDecrypt_Decrypt.
  destruct kw as [keyalg contentalg apu apv exchFn pubkey]. simpl.
  split_and!.
  - destruct keyalg; try done.
    destruct (contentcipher_KeySize _); [|done..].
    by destruct (DeriveECMR _ _ _ _ _ _ _).
  - destruct keyalg; try done.
  - intros Hne. by destruct keyalg.
  - intros -> size ->. by destruct (DeriveECMR _ _ _ _ _ _ _).
Qed.

(** X10. RSA-OAEP round trip through the facades: an encrypter and a decrypter
    constructed for the same identifier use the same hash (SHA-1 for
    RSA_OAEP, SHA-256 for RSA_OAEP_256) and the empty label, so whenever
    [rsa.DecryptOAEP] undoes [rsa.EncryptOAEP] for the key pair under one
    hash, [Decrypt] returns the CEK that [Encrypt] was given. *)
Theorem RSAOAEP_Decrypt_Encrypt (alg : KeyEncryptionAlgorithm)
    (pubkey : rsa.PublicKey) (privkey : rsa.PrivateKey)
    (e : RSAOAEPEncrypt) (d : RSAOAEPDecrypt)
    (cek rnd rnd' encrypted : list byte) :
  NewRSAOAEPEncrypt alg pubkey = Ok e ->
  NewRSAOAEPDecrypt alg privkey = Ok d ->
  (forall hash c,
     rsa_EncryptOAEP hash rnd pubkey cek [] = Ok c ->
     rsa_DecryptOAEP hash rnd' privkey c [] = Ok cek) ->
  RSAOAEPEncrypt_Encrypt (C := C) e cek rnd = Done (ByteKey encrypted) ->
  RSAOAEPDecrypt_Decrypt d encrypted rnd' = Done cek.
Proof.
  intros He Hd Hprim.
  unfold RSAOAEPEncrypt_Encrypt, RSAOAEPDecrypt_Decrypt.
  destruct alg; try done; injection He as <-; injection Hd as <-; simpl.
  all: destruct (rsa_EncryptOAEP _ _ _ _ _) as [c| |] eqn:Henc; try done.
  all: intros [= <-]; by rewrite (Hprim _ _ Henc).
Qed.

(** X11. An encrypter that its constructor returned never fails with the
    algorithm error: its [Encrypt] goes to the RSA primitive. *)
Theorem RSA_encrypters_reach_primitive (alg : KeyEncryptionAlgorithm)
    (pubkey : rsa.PublicKey) (cek rnd : list byte) :
  (forall e,
     NewRSAPKCSEncrypt alg pubkey = Ok e ->
     RSAPKCSEncrypt_Encrypt (C := C) e cek rnd =
       match rsa_EncryptPKCS1v15 rnd pubkey cek with
       | Ok encrypted => Ok (ByteKey encrypted)
       | Err err => Err (ErrWrap err "failed to encrypt using PKCS1v15")
       | Panic msg => Panic msg
       end) /\
  (forall e,
     NewRSAOAEPEncrypt alg pubkey = Ok e ->
     exists hash,
       oaep_hash_of alg = Done hash /\
       RSAOAEPEncrypt_Encrypt (C := C) e cek rnd =
         match rsa_EncryptOAEP hash rnd pubkey cek [] with
         | Ok encrypted => Done (ByteKey encrypted)
         | Err err => Failed (Known (ErrWrap err "failed to OAEP encrypt"))
         | Panic msg => Panicked msg
         end).
Proof.
  split; intros e He.
  - destruct alg; try done. by injection He as <-.
  - destruct alg; try done; injection He as <-; eexists; by split.
Qed.

End facades.

Section facades_instances.
Import Go keyenc keyenc2 Examples Examples2.

Lemma test_aes_accepts_16 :
  aes_NewCipher (Collaborators := test_collaborators) (replicate 16 x01)
  = Ok reversal_cipher.
Proof. vm_compute. reflexivity. Qed.

Lemma AESCGM_Decrypt_Encrypt_witness :
  let kw := {| AESCGM_alg := A128KW; AESCGM_sharedkey := replicate 16 x01;
               AESCGM_keyID := "" |} in
  exists enckey,
    (AESCGM_Encrypt (C := test_curve) kw
       (bytes_of [1; 2; 3; 4; 5; 6; 7; 8])).2 = Ok (ByteKey enckey) /\
    length enckey = (8 * (1 + 1))%nat /\
    (AESCGM_Decrypt (C := test_curve) kw enckey).2
      = Ok (bytes_of [1; 2; 3; 4; 5; 6; 7; 8]).
Proof.
  apply (AESCGM_Decrypt_Encrypt (collab := test_collaborators)
           {| AESCGM_alg := A128KW; AESCGM_sharedkey := replicate 16 x01;
              AESCGM_keyID := "" |} reversal_cipher).
  - exact test_aes_accepts_16.
  - exact reversal_cipher_valid.
  - reflexivity.
Defined.

Lemma AESCGM_failures_witness :
  let kw := {| AESCGM_alg := A128KW; AESCGM_sharedkey := replicate 16 x01;
               AESCGM_keyID := "" |} in
  AESCGM_Encrypt (C := test_curve) kw (bytes_of [1; 2; 3])
    = ([], Err (ErrWrap ErrKeywrapInput "keywrap: failed to wrap key")) /\
  AESCGM_Decrypt (C := test_curve) kw (bytes_of [1; 2; 3])
    = ([], Err (ErrWrap ErrKeyunwrapInput "failed to unwrap data")).
Proof.
  intros kw.
  destruct (AESCGM_failures (collab := test_collaborators) kw
              (bytes_of [1; 2; 3])) as [_ Hragged].
  apply (Hragged reversal_cipher).
  - exact test_aes_accepts_16.
  - simpl. lia.
Defined.

Lemma test_kek_derived :
  DeriveECDHES (KeyAlgName ECDH_ES_A128KW) [] [] recipient_priv recipient_pub 16
  = Ok test_kek.
Proof. vm_compute. reflexivity. Qed.

Lemma derived_key_length_witness : length test_kek = Z.to_nat 16.
Proof.
  destruct (derived_key_length (collab := test_collaborators)
              (KeyAlgName ECDH_ES_A128KW) [] [] 16 test_kek) as [Hecdh _].
  exact (Hecdh recipient_priv recipient_pub test_kek_derived).
Defined.

Lemma DeriveECDHES_off_curve_witness :
  DeriveECDHES [] [] [] recipient_priv
    {| ecdsa.Curve := CurveA; ecdsa.X := 5; ecdsa.Y := 11 |} 16
  = Err ErrNotOnPrivkeyCurve.
Proof. apply DeriveECDHES_off_curve. reflexivity. Defined.

Lemma test_aes_accepts_kek :
  aes_NewCipher (Collaborators := test_collaborators) test_kek
  = Ok reversal_cipher.
Proof. vm_compute. reflexivity. Qed.

Lemma ECDHESDecrypt_Decrypt_Encrypt_witness :
  let dec := NewECDHESDecrypt ECDH_ES_A128KW "A128GCM" recipient_pub [] []
               recipient_priv in
  exists jek,
    (ECDHESEncrypt_Encrypt test_encrypter
       (bytes_of [1; 2; 3; 4; 5; 6; 7; 8]) []).2
      = Done (ByteWithECPrivateKey jek ephemeral_priv) /\
    (ECDHESDecrypt_Decrypt dec jek).2 = Ok (bytes_of [1; 2; 3; 4; 5; 6; 7; 8]).
Proof.
  apply (ECDHESDecrypt_Decrypt_Encrypt test_encrypter
           (NewECDHESDecrypt ECDH_ES_A128KW "A128GCM" recipient_pub [] []
                             recipient_priv)
           _ [] test_kek ephemeral_priv reversal_cipher 16 1).
  - reflexivity.
  - exact test_aes_accepts_kek.
  - exact reversal_cipher_valid.
  - reflexivity.
  - simpl. apply elem_of_cons. by left.
  - exact test_kek_derived.
Defined.

Lemma ECMRDecrypt_Decrypt_never_unwraps_witness :
  ECMRDecrypt_Decrypt
    (NewECMRDecrypt ECDH_ES_A128KW "A128GCM" recipient_pub [] [] exch_secret_7)
    (replicate 16 x00) [x02]
  = ([], Failed (ErrInvalidECMRAlg ECDH_ES_A128KW)).
Proof.
  destruct (ECMRDecrypt_Decrypt_never_unwraps
              (NewECMRDecrypt ECDH_ES_A128KW "A128GCM" recipient_pub [] []
                              exch_secret_7) (replicate 16 x00) [x02])
    as (_ & _ & Hother & _).
  apply Hother. discriminate.
Defined.

Lemma RSAOAEP_Decrypt_Encrypt_witness :
  RSAOAEPDecrypt_Decrypt
    {| RSAOAEPDecrypt_alg := RSA_OAEP_256; RSAOAEPDecrypt_privkey := key2048 |}
    (x20 :: bytes_of [1; 2; 3]) []
  = Done (bytes_of [1; 2; 3]).
Proof.
  apply (RSAOAEP_Decrypt_Encrypt (C := test_curve) RSA_OAEP_256
           (rsa.Public key2048) key2048
           {| RSAOAEPEncrypt_alg := RSA_OAEP_256;
              RSAOAEPEncrypt_pubkey := rsa.Public key2048;
              RSAOAEPEncrypt_keyID := "" |}
           _ (bytes_of [1; 2; 3]) [] []).
  - reflexivity.
  - reflexivity.
  - intros hash c. destruct hash; intros [= <-]; reflexivity.
  - reflexivity.
Defined.

Lemma RSA_encrypters_reach_primitive_witness :
  RSAPKCSEncrypt_Encrypt (C := test_curve)
    {| RSAPKCSEncrypt_alg := RSA1_5;
       RSAPKCSEncrypt_pubkey := rsa.Public key2048;
       RSAPKCSEncrypt_keyID := "" |} (bytes_of [1; 2; 3]) []
  = Ok (ByteKey (x02 :: bytes_of [1; 2; 3])).
Proof.
  destruct (RSA_encrypters_reach_primitive (C := test_curve) RSA1_5
              (rsa.Public key2048) (bytes_of [1; 2; 3]) []) as [Hpkcs _].
  rewrite (Hpkcs _ eq_refl). reflexivity.
Defined.

End facades_instances.

(** ** The keys of jwk/ecdsa.go *)

Section go_facts2.
Import Go.

Lemma SetBytes_nonneg buf : 0 <= SetBytes buf.
Proof.
  unfold SetBytes.
  assert (forall acc, 0 <= acc ->
            0 <= fold_left (fun acc b => acc * 256 + byte_to_Z b) buf acc) as H.
  { induction buf as [|b buf IH]; intros acc Hacc; [done|].
    simpl. apply IH. unfold byte_to_Z. lia. }
  by apply H.
Qed.

Lemma length_le_digits_lower k fuel x :
  256 ^ Z.of_nat k <= x < 2 ^ Z.of_nat fuel ->
  (k < length (le_digits fuel x))%nat.
Proof.
  revert fuel x. induction k as [|k IH]; intros fuel x Hx.
  - change (256 ^ Z.of_nat 0) with 1 in Hx.
    destruct fuel as [|fuel]; [change (2 ^ Z.of_nat 0) with 1 in Hx; lia|].
    simpl. destruct (Z.eqb_spec x 0); [lia|]. simpl. lia.
  - rewrite Nat2Z.inj_succ, Z.pow_succ_r in Hx by lia.
    assert (0 < 256 ^ Z.of_nat k) by (apply Z.pow_pos_nonneg; lia).
    destruct fuel as [|fuel]; [change (2 ^ Z.of_nat 0) with 1 in Hx; lia|].
    simpl. destruct (Z.eqb_spec x 0); [lia|]. simpl.
    apply ->Nat.succ_lt_mono. apply IH.
    rewrite Nat2Z.inj_succ, Z.pow_succ_r in Hx by lia.
    Z.div_mod_to_equations; nia.
Qed.

(** A coordinate of [256^k] or more needs more than [k] bytes. *)
Lemma length_Bytes_lower k x :
  0 <= k -> 256 ^ k <= x -> k < Z.of_nat (length (Bytes x)).
Proof.
  intros Hk Hx.
  assert (0 < 256 ^ k) by (apply Z.pow_pos_nonneg; lia).
  unfold Bytes. rewrite length_rev, Z.abs_eq by lia.
  pose proof (length_le_digits_lower (Z.to_nat k)
                (S (Z.to_nat (Z.log2 x))) x) as Hlow.
  rewrite Z2Nat.id in Hlow by done.
  rewrite Nat2Z.inj_succ, Z2Nat.id in Hlow by apply Z.log2_nonneg.
  pose proof (Z.log2_spec x). lia.
Qed.

(** What [newFixedSizeBuffer] returns on the bytes of a coordinate that
    fits the curve size. *)
Lemma fixed_width_buffer (params : jwk.CurveParams) (x : Z) :
  0 <= jwk.BitSize params -> 0 <= x ->
  Z.of_nat (length (Bytes x)) <= (jwk.BitSize params + 7) / 8 ->
  exists buf,
    jwk.newFixedSizeBuffer (Bytes x) (jwk.curveSize params) = Ok buf /\
    Z.of_nat (length buf) = (jwk.BitSize params + 7) / 8 /\
    SetBytes buf = x.
Proof.
  intros Hb Hx Hlen. unfold jwk.newFixedSizeBuffer.
  rewrite (curveSize_ceil _ Hb).
  destruct (Z.gtb_spec (Z.of_nat (length (Bytes x)))
              ((jwk.BitSize params + 7) / 8)) as [Hgt|_]; [lia|].
  eexists. split; [reflexivity|].
  rewrite length_app, length_make, SetBytes_pad, SetBytes_Bytes by done.
  split; [lia|done].
Qed.

End go_facts2.

Section jwk_keys.
Import Go jwk jwk2.
Context {C : Type} {curve : EllipticCurve C} {std : StdCurves C}
        {H : Type} {hdr : JWKHeaders H}.

Lemma curve_algorithm_build (c : C) (alg : jwa.EllipticCurveAlgorithm)
    (xbuf ybuf : list byte) :
  curve_algorithm c = Some alg ->
  buildECDSAPublicKey alg xbuf ybuf
  = Done {| ecdsa.Curve := c; ecdsa.X := SetBytes xbuf;
            ecdsa.Y := SetBytes ybuf |}.
Proof.
  unfold curve_algorithm, buildECDSAPublicKey.
  destruct (bool_decide_reflect (c = elliptic_P256)) as [->|_];
    [by intros [= <-]|].
  destruct (bool_decide_reflect (c = elliptic_P384)) as [->|_];
    [by intros [= <-]|].
  destruct (bool_decide_reflect (c = elliptic_P521)) as [->|_];
    [by intros [= <-]|].
  done.
Qed.

Lemma buildECDSAPublicKey_Done alg xbuf ybuf key :
  buildECDSAPublicKey alg xbuf ybuf = Done key ->
  ecdsa.X key = SetBytes xbuf /\ ecdsa.Y key = SetBytes ybuf /\
  forall xbuf' ybuf',
    buildECDSAPublicKey alg xbuf' ybuf'
    = Done {| ecdsa.Curve := ecdsa.Curve key; ecdsa.X := SetBytes xbuf';
              ecdsa.Y := SetBytes ybuf' |}.
Proof.
  unfold buildECDSAPublicKey.
  destruct alg; try done; by intros [= <-].
Qed.

(** X16. [buildECDSAPublicKey] reads coordinates of any width: leading zero
    bytes make no difference, so the fixed-width form that
    [newFixedSizeBuffer] writes and the minimal form of [big.Int.Bytes]
    build the same key. *)
Theorem buildECDSAPublicKey_ignores_leading_zeros
    (alg : jwa.EllipticCurveAlgorithm) (xbuf ybuf : list byte) (i j : nat) :
  buildECDSAPublicKey alg (make i ++ xbuf) (make j ++ ybuf)
  = buildECDSAPublicKey alg xbuf ybuf.
Proof.
  unfold buildECDSAPublicKey. by rewrite !SetBytes_pad.
Qed.

(** X17. [Raw] after [FromRaw] gives back the raw public key: for a key on one
    of the three curves with non-negative coordinates, if the header store
    returns the curve name it was given, a successful [FromRaw] leaves a
    JWK whose [Raw] is the key that was put in. *)
Theorem ecdsaPublicKey_Raw_FromRaw (k k' : ecdsaPublicKey H)
    (rawKey : ecdsa.PublicKey C) :
  headers_keep_crv ->
  0 <= ecdsa.X rawKey -> 0 <= ecdsa.Y rawKey ->
  ecdsaPublicKey_FromRaw k rawKey = (k', Done tt) ->
  ecdsaPublicKey_Raw k' = Done rawKey.
Proof.
  intros Hkeep HX HY. unfold ecdsaPublicKey_FromRaw. simpl.
  destruct (curve_algorithm (ecdsa.Curve rawKey)) as [alg|] eqn:Halg;
    [|done].
  destruct (Set_ECDSACrvKey _ alg) as [headers| |] eqn:Hset; try done.
  intros [= <-]. unfold ecdsaPublicKey_Raw. simpl.
  rewrite (Hkeep _ _ _ Hset), (curve_algorithm_build _ _ _ _ Halg).
  rewrite !SetBytes_Bytes by done. by destruct rawKey.
Qed.

(** X18. The same round trip for private keys, [d] included. *)
Theorem ecdsaPrivateKey_Raw_FromRaw (k k' : ecdsaPrivateKey H)
    (rawKey : ecdsa.PrivateKey C) :
  headers_keep_crv ->
  0 <= ecdsa.X (ecdsa.Public rawKey) -> 0 <= ecdsa.Y (ecdsa.Public rawKey) ->
  0 <= ecdsa.D rawKey ->
  ecdsaPrivateKey_FromRaw k rawKey = (k', Done tt) ->
  ecdsaPrivateKey_Raw k' = Done rawKey.
Proof.
  intros Hkeep HX HY HD. unfold ecdsaPrivateKey_FromRaw. simpl.
  destruct (curve_algorithm (ecdsa.Curve (ecdsa.Public rawKey)))
    as [alg|] eqn:Halg; [|done].
  destruct (Set_ECDSACrvKey _ alg) as [headers| |] eqn:Hset; try done.
  intros [= <-]. unfold ecdsaPrivateKey_Raw. simpl.
  rewrite (Hkeep _ _ _ Hset), (curve_algorithm_build _ _ _ _ Halg).
  rewrite !SetBytes_Bytes by done. by destruct rawKey as [[] ?].
Qed.

(** X19. [FromRaw] is not all-or-nothing: for a curve that is none of the
    three it returns "invalid elliptic curve", yet [x] and [y] of the JWK
    have already been overwritten with the coordinates of the rejected key;
    the headers, and [d] of a private key, are as before. *)
Theorem FromRaw_unsupported_curve_overwrites
    (pub : ecdsaPublicKey H) (priv : ecdsaPrivateKey H)
    (rawKey : ecdsa.PrivateKey C) :
  let rawPub := ecdsa.Public rawKey in
  ecdsa.Curve rawPub <> elliptic_P256 ->
  ecdsa.Curve rawPub <> elliptic_P384 ->
  ecdsa.Curve rawPub <> elliptic_P521 ->
  ecdsaPublicKey_FromRaw pub rawPub
  = ({| ecdsaPublicKey_headers := ecdsaPublicKey_headers pub;
        ecdsaPublicKey_x := Bytes (ecdsa.X rawPub);
        ecdsaPublicKey_y := Bytes (ecdsa.Y rawPub) |},
     Failed ErrInvalidEllipticCurve) /\
  ecdsaPrivateKey_FromRaw priv rawKey
  = ({| ecdsaPrivateKey_headers := ecdsaPrivateKey_headers priv;
        ecdsaPrivateKey_x := Bytes (ecdsa.X rawPub);
        ecdsaPrivateKey_y := Bytes (ecdsa.Y rawPub);
        ecdsaPrivateKey_d := ecdsaPrivateKey_d priv |},
     Failed ErrInvalidEllipticCurve).
Proof.
  intros rawPub H256 H384 H521.
  unfold ecdsaPublicKey_FromRaw, ecdsaPrivateKey_FromRaw, curve_algorithm.
  fold rawPub.
  by rewrite !bool_decide_eq_false_2.
Qed.

(** X20. [Thumbprint] succeeds on coordinates below [2^BitSize]: the digest is
    that of the JSON text with the curve name and the two coordinates in
    fixed width, [curveSize] bytes each. *)
Theorem ecdsaPublicKey_Thumbprint_in_range (k : ecdsaPublicKey H)
    (hash : string -> list byte) (key : ecdsa.PublicKey C) :
  ecdsaPublicKey_Raw k = Done key ->
  let params := Params (ecdsa.Curve key) in
  0 <= BitSize params ->
  ecdsa.X key < 2 ^ BitSize params ->
  ecdsa.Y key < 2 ^ BitSize params ->
  exists xbuf ybuf,
    Z.of_nat (length xbuf) = (BitSize params + 7) / 8 /\
    Z.of_nat (length ybuf) = (BitSize params + 7) / 8 /\
    SetBytes xbuf = SetBytes (ecdsaPublicKey_x k) /\
    SetBytes ybuf = SetBytes (ecdsaPublicKey_y k) /\
    ecdsaPublicKey_Thumbprint k hash
    = Done (ecdsaThumbprint hash (Name params)
              (base64_EncodeToString xbuf) (base64_EncodeToString ybuf)).
Proof.
  intros Hraw params Hbits HX HY.
  unfold ecdsaPublicKey_Thumbprint. rewrite Hraw.
  unfold ecdsaPublicKey_Raw in Hraw.
  destruct (buildECDSAPublicKey _ _ _) as [pubk| |] eqn:Hbuild; try done.
  injection Hraw as ->.
  destruct (buildECDSAPublicKey_Done _ _ _ _ Hbuild) as (HXv & HYv & _).
  assert (0 <= ecdsa.X key) by (rewrite HXv; apply SetBytes_nonneg).
  assert (0 <= ecdsa.Y key) by (rewrite HYv; apply SetBytes_nonneg).
  destruct (fixed_width_buffer params (ecdsa.X key))
    as (xbuf & Hxbuf & Hlx & Hvx); [done|done|by apply length_Bytes_bound|].
  destruct (fixed_width_buffer params (ecdsa.Y key))
    as (ybuf & Hybuf & Hly & Hvy); [done|done|by apply length_Bytes_bound|].
  exists xbuf, ybuf. unfold thumbprint_of. fold params.
  rewrite Hxbuf, Hybuf. split_and!; try done; congruence.
Qed.

(** X21. [Thumbprint] panics on an oversized coordinate: [buildECDSAPublicKey]
    puts no bound on the stored [x] and [y], and a coordinate of
    [256^curveSize] or more makes [newFixedSizeBuffer] panic. *)
Theorem ecdsaPublicKey_Thumbprint_oversized (k : ecdsaPublicKey H)
    (hash : string -> list byte) (key : ecdsa.PublicKey C) :
  ecdsaPublicKey_Raw k = Done key ->
  let size := curveSize (Params (ecdsa.Curve key)) in
  0 <= size ->
  256 ^ size <= ecdsa.X key \/ 256 ^ size <= ecdsa.Y key ->
  exists msg, ecdsaPublicKey_Thumbprint k hash = Panicked msg.
Proof.
  intros Hraw size Hsize Hbig.
  unfold ecdsaPublicKey_Thumbprint. rewrite Hraw.
  unfold thumbprint_of, newFixedSizeBuffer. fold size.
  destruct (Z.gtb_spec (Z.of_nat (length (Bytes (ecdsa.X key)))) size)
    as [_|HlX]; [by eexists|].
  destruct (Z.gtb_spec (Z.of_nat (length (Bytes (ecdsa.Y key)))) size)
    as [_|HlY]; [by eexists|].
  destruct Hbig as [Hbig|Hbig];
    apply (length_Bytes_lower _ _ Hsize) in Hbig; lia.
Qed.

(** X22. The thumbprint does not depend on leading zero bytes of the stored
    coordinates. *)
Theorem ecdsaPublicKey_Thumbprint_leading_zeros (headers : H)
    (x y : list byte) (i j : nat) (hash : string -> list byte) :
  ecdsaPublicKey_Thumbprint
    {| ecdsaPublicKey_headers := headers;
       ecdsaPublicKey_x := make i ++ x; ecdsaPublicKey_y := make j ++ y |} hash
  = ecdsaPublicKey_Thumbprint
      {| ecdsaPublicKey_headers := headers;
         ecdsaPublicKey_x := x; ecdsaPublicKey_y := y |} hash.
Proof.
  unfold ecdsaPublicKey_Thumbprint, ecdsaPublicKey_Raw. simpl.
  unfold buildECDSAPublicKey. by rewrite !SetBytes_pad.
Qed.

(** X23. The public key that [PublicKey()] extracts from a private key has the
    raw public key and the thumbprint of the private key. *)
Theorem ecdsaPrivateKey_PublicKey_same_thumbprint (k : ecdsaPrivateKey H)
    (pk : ecdsaPublicKey H) (hash : string -> list byte) :
  headers_keep_crv ->
  ecdsaPrivateKey_PublicKey k = Done pk ->
  (exists privk,
     ecdsaPrivateKey_Raw k = Done privk /\
     ecdsaPublicKey_Raw pk = Done (ecdsa.Public privk)) /\
  ecdsaPublicKey_Thumbprint pk hash = ecdsaPrivateKey_Thumbprint k hash.
Proof.
  intros Hkeep. unfold ecdsaPrivateKey_PublicKey.
  destruct (ecdsaPrivateKey_Raw k) as [privk| |] eqn:Hraw; try done.
  destruct (ecdsaPublicKey_FromRaw NewECDSAPublicKey (ecdsa.Public privk))
    as [newKey [[]| |]] eqn:Hfrom; try done.
  intros [= ->].
  assert (ecdsaPublicKey_Raw pk = Done (ecdsa.Public privk)) as Hpk.
  { unfold ecdsaPrivateKey_Raw in Hraw.
    destruct (buildECDSAPublicKey _ _ _) as [pubk| |] eqn:Hbuild; try done.
    injection Hraw as <-. simpl in *.
    destruct (buildECDSAPublicKey_Done _ _ _ _ Hbuild) as (HXv & HYv & _).
    revert Hfrom. unfold ecdsaPublicKey_FromRaw. simpl.
    destruct (curve_algorithm (ecdsa.Curve pubk)) as [alg|] eqn:Halg;
      [|done].
    destruct (Set_ECDSACrvKey _ alg) as [headers| |] eqn:Hset; try done.
    intros [= <-]. unfold ecdsaPublicKey_Raw. simpl.
    rewrite (Hkeep _ _ _ Hset), (curve_algorithm_build _ _ _ _ Halg).
    rewrite !SetBytes_Bytes by (rewrite ?HXv, ?HYv; apply SetBytes_nonneg).
    by destruct pubk. }
  split; [by exists privk|].
  unfold ecdsaPublicKey_Thumbprint, ecdsaPrivateKey_Thumbprint.
  by rewrite Hpk, Hraw.
Qed.

End jwk_keys.

Section jwk_keys_instances.
Import Go jwk jwk2 Examples Examples2.

Lemma crv_only_headers_keep_crv :
  headers_keep_crv (hdr := crv_only_headers).
Proof. intros h h' alg [= <-]. reflexivity. Qed.

Lemma ecdsaPublicKey_Raw_FromRaw_witness :
  ecdsaPublicKey_Raw
    {| ecdsaPublicKey_headers := jwa.P256;
       ecdsaPublicKey_x := bytes_of [1; 2];
       ecdsaPublicKey_y := bytes_of [3; 4] |}
  = Done (ecdsa.Public raw_P256).
Proof.
  apply (ecdsaPublicKey_Raw_FromRaw NewECDSAPublicKey).
  - exact crv_only_headers_keep_crv.
  - simpl. lia.
  - simpl. lia.
  - vm_compute. reflexivity.
Defined.

Lemma ecdsaPrivateKey_Raw_FromRaw_witness :
  ecdsaPrivateKey_Raw jwk_P256 = Done raw_P256.
Proof.
  apply (ecdsaPrivateKey_Raw_FromRaw NewECDSAPrivateKey).
  - exact crv_only_headers_keep_crv.
  - simpl. lia.
  - simpl. lia.
  - simpl. lia.
  - vm_compute. reflexivity.
Defined.

Lemma FromRaw_unsupported_curve_overwrites_witness :
  ecdsaPublicKey_FromRaw (std := curve_A_only)
    {| ecdsaPublicKey_headers := jwa.P256;
       ecdsaPublicKey_x := bytes_of [1; 2];
       ecdsaPublicKey_y := bytes_of [3; 4] |}
    {| ecdsa.Curve := CurveB; ecdsa.X := 9; ecdsa.Y := 18 |}
  = ({| ecdsaPublicKey_headers := jwa.P256;
        ecdsaPublicKey_x := bytes_of [9];
        ecdsaPublicKey_y := bytes_of [18] |},
     Failed ErrInvalidEllipticCurve).
Proof.
  destruct (FromRaw_unsupported_curve_overwrites (std := curve_A_only)
              {| ecdsaPublicKey_headers := jwa.P256;
                 ecdsaPublicKey_x := bytes_of [1; 2];
                 ecdsaPublicKey_y := bytes_of [3; 4] |}
              NewECDSAPrivateKey
              {| ecdsa.Public := {| ecdsa.Curve := CurveB; ecdsa.X := 9;
                                    ecdsa.Y := 18 |};
                 ecdsa.D := 1 |}) as [Hpub _]; try discriminate.
  exact Hpub.
Defined.

Lemma ecdsaPublicKey_Thumbprint_in_range_witness :
  exists xbuf ybuf,
    Z.of_nat (length xbuf) = (256 + 7) / 8 /\
    Z.of_nat (length ybuf) = (256 + 7) / 8 /\
    SetBytes xbuf = SetBytes (bytes_of [1; 2]) /\
    SetBytes ybuf = SetBytes (bytes_of [3; 4]) /\
    ecdsaPublicKey_Thumbprint
      {| ecdsaPublicKey_headers := jwa.P256;
         ecdsaPublicKey_x := bytes_of [1; 2];
         ecdsaPublicKey_y := bytes_of [3; 4] |} text_hash
    = Done (ecdsaThumbprint text_hash "P-256"
              (base64_EncodeToString xbuf) (base64_EncodeToString ybuf)).
Proof.
  assert (ecdsaPublicKey_Raw
            {| ecdsaPublicKey_headers := jwa.P256;
               ecdsaPublicKey_x := bytes_of [1; 2];
               ecdsaPublicKey_y := bytes_of [3; 4] |}
          = Done (ecdsa.Public raw_P256)) as Hraw
    by (vm_compute; reflexivity).
  pose proof (ecdsaPublicKey_Thumbprint_in_range _ text_hash _ Hraw) as W.
  simpl in W. apply W; lia.
Defined.

Lemma ecdsaPublicKey_Thumbprint_oversized_witness :
  exists msg,
    ecdsaPublicKey_Thumbprint
      {| ecdsaPublicKey_headers := jwa.P256;
         ecdsaPublicKey_x := x01 :: replicate 32 x00;
         ecdsaPublicKey_y := bytes_of [3; 4] |} text_hash
    = Panicked msg.
Proof.
  apply (ecdsaPublicKey_Thumbprint_oversized
           {| ecdsaPublicKey_headers := jwa.P256;
              ecdsaPublicKey_x := x01 :: replicate 32 x00;
              ecdsaPublicKey_y := bytes_of [3; 4] |} text_hash
           {| ecdsa.Curve := NamedP256; ecdsa.X := 256 ^ 32;
              ecdsa.Y := 772 |}).
  - vm_compute. reflexivity.
  - vm_compute. discriminate.
  - left. vm_compute. discriminate.
Defined.

Lemma ecdsaPrivateKey_PublicKey_same_thumbprint_witness :
  (exists privk,
     ecdsaPrivateKey_Raw jwk_P256 = Done privk /\
     ecdsaPublicKey_Raw
       {| ecdsaPublicKey_headers := jwa.P256;
          ecdsaPublicKey_x := bytes_of [1; 2];
          ecdsaPublicKey_y := bytes_of [3; 4] |}
     = Done (ecdsa.Public privk)) /\
  ecdsaPublicKey_Thumbprint
    {| ecdsaPublicKey_headers := jwa.P256;
       ecdsaPublicKey_x := bytes_of [1; 2];
       ecdsaPublicKey_y := bytes_of [3; 4] |} text_hash
  = ecdsaPrivateKey_Thumbprint jwk_P256 text_hash.
Proof.
  apply ecdsaPrivateKey_PublicKey_same_thumbprint.
  - exact crv_only_headers_keep_crv.
  - vm_compute. reflexivity.
Defined.

End jwk_keys_instances.

(** ** Direct modes and the RSA PKCS#1 v1.5 decrypter, continued *)

Section direct_modes.
Import Go keyenc keyenc2.
Context {C : Type} {curve : EllipticCurve C} {collab : Collaborators C}.

Lemma read_kdf_length alg apu apv pubinfo z (c : C) keysize key :
  read_kdf alg apu apv pubinfo z c keysize = Ok key ->
  length key = Z.to_nat keysize.
Proof.
  unfold read_kdf.
  destruct (concatkdf_Read _ _ _ _ _ _ _); [|done..].
  intros [= <-]. by rewrite length_copy, length_make.
Qed.

(** X12. In the direct modes the returned CEK has exactly the key length of the
    content cipher: for ECDH_ES through [ECDHESDecrypt.Decrypt] and for ECMR
    through [ECMRDecrypt.Decrypt]. *)
Theorem direct_mode_key_length (contentalg : ContentEncryptionAlgorithm)
    (size : Z) (key : list byte) :
  contentcipher_KeySize contentalg = Ok size ->
  0 <= size < 2 ^ 32 ->
  (forall kw enckey,
     ECDHESDecrypt_keyalg kw = ECDH_ES ->
     ECDHESDecrypt_contentalg kw = contentalg ->
     (ECDHESDecrypt_Decrypt kw enckey).2 = Ok key ->
     Z.of_nat (length key) = size) /\
  (forall kw enckey rnd,
     ECMRDecrypt_keyalg kw = ECMR ->
     ECMRDecrypt_contentalg kw = contentalg ->
     (ECMRDecrypt_Decrypt kw enckey rnd).2 = Done key ->
     Z.of_nat (length key) = size).
Proof.
  intros Hsize Hrange.
  assert (uint32 size = size) as Hu by (unfold uint32; apply Z.mod_small; lia).
  split.
  - intros [keyalg calg apu apv privkey pubkey] enckey. simpl.
    intros -> ->. unfold ECDHESDecrypt_Decrypt. simpl. rewrite Hsize, Hu.
    destruct (DeriveECDHES _ _ _ _ _ _) as [k| |] eqn:Hd; try done.
    simpl. intros [= <-].
    unfold DeriveECDHES in Hd.
    destruct (negb _); [done|]. destruct (ScalarMult _ _ _ _).
    apply read_kdf_length in Hd. lia.
  - intros [keyalg calg apu apv exchFn pubkey] enckey rnd. simpl.
    intros -> ->. unfold ECMRDecrypt_Decrypt. simpl. rewrite Hsize, Hu.
    destruct (DeriveECMR _ _ _ _ _ _ _) as [k| |] eqn:Hd; try done.
    simpl. intros [= <-].
    unfold DeriveECMR in Hd.
    destruct (ecdsa_GenerateKey _ _); [|done..].
    destruct (Add _ _ _ _ _).
    destruct (exchFn _) as [[respKey srvKey]| |]; [|done..].
    destruct (negb (bool_decide _)); [done|].
    destruct (negb (IsOnCurve _ _ _)); [done|].
    destruct (ScalarMult _ _ _ _). destruct (Add _ _ _ _ _).
    apply read_kdf_length in Hd. lia.
Qed.

(** [DirectDecrypt.Decrypt] returns the embedded key and cannot fail. *)
Lemma DirectDecrypt_Decrypt_key (d : DirectDecrypt) :
  DirectDecrypt_Decrypt d = Ok (DirectDecrypt_Key d).
Proof.
  unfold DirectDecrypt_Decrypt. f_equal. apply copy_full, length_make.
Qed.

End direct_modes.

Section direct_modes_instances.
Import Go keyenc keyenc2 Examples Examples2.

Lemma direct_mode_key_length_witness :
  Z.of_nat (length (bytes_of [15; 65; 49; 50; 56; 71; 67; 77;
                              0; 0; 0; 128; 0; 0; 0; 0])) = 16.
Proof.
  destruct (direct_mode_key_length (collab := test_collaborators) "A128GCM" 16
              (bytes_of [15; 65; 49; 50; 56; 71; 67; 77;
                         0; 0; 0; 128; 0; 0; 0; 0]) eq_refl ltac:(lia))
    as [Hecdh _].
  apply (Hecdh (NewECDHESDecrypt ECDH_ES "A128GCM" recipient_pub [] []
                                 recipient_priv) []).
  - reflexivity.
  - reflexivity.
  - vm_compute. reflexivity.
Defined.

Lemma RSAPKCS15Decrypt_rejects_other_lengths_witness :
  RSAPKCS15Decrypt_Decrypt (collab := test_collaborators)
    (NewRSAPKCS15Decrypt RSA1_5 key2048 16) (replicate 32 x2a)
    (replicate 10 x01)
  = ([], (None, Some (ErrInputSize 256 10))).
Proof.
  apply (RSAPKCS15Decrypt_rejects_other_lengths
           (collab := test_collaborators)
           (NewRSAPKCS15Decrypt RSA1_5 key2048 16)).
  vm_compute. discriminate.
Defined.

Lemma RSAPKCS15Decrypt_recovers_panic_witness :
  RSAPKCS15Decrypt_Decrypt (collab := panicking_collaborators)
    (NewRSAPKCS15Decrypt RSA1_5 key2048 16) (replicate 32 x2a)
    (replicate 256 x01)
  = ([EvGenerate; EvRSADecrypt (replicate 256 x01)], (None, None)).
Proof.
  apply (RSAPKCS15Decrypt_recovers_panic (collab := panicking_collaborators)
           (NewRSAPKCS15Decrypt RSA1_5 key2048 16) (replicate 32 x2a)
           (replicate 256 x01) (replicate 32 x2a)
           "runtime error: index out of range").
  - vm_compute. reflexivity.
  - vm_compute. reflexivity.
  - reflexivity.
Defined.

Lemma RSAPKCS15Decrypt_returns_fallback_witness :
  RSAPKCS15Decrypt_Decrypt (collab := test_collaborators)
    (NewRSAPKCS15Decrypt RSA1_5 key2048 16) (replicate 32 x2a)
    (replicate 256 x01)
  = ([EvGenerate; EvRSADecrypt (replicate 256 x01)],
     (Some (replicate 32 x2a), None)).
Proof.
  apply (RSAPKCS15Decrypt_returns_fallback (collab := test_collaborators)
           (NewRSAPKCS15Decrypt RSA1_5 key2048 16) (replicate 32 x2a)
           (replicate 256 x01) (replicate 32 x2a)).
  - vm_compute. reflexivity.
  - vm_compute. reflexivity.
  - vm_compute. reflexivity.
Defined.

End direct_modes_instances.
